(** * The login selector page of the SQL migration wizard

    A shallow embedding of
    [extensions/sql-migration/src/wizard/loginSelectorPage.ts]:
    the class [LoginSelectorPage], its table filters, its lifecycle
    hooks, its navigation validator and its refresh of the login lists.

    JavaScript values that flow through the [any[]] rows of the tables are
    modelled by [JsVal]; the page object is a record [Page] threaded through
    a state-and-exception monad [M]; what the page does to the outside world
    (queries, telemetry, dialogs) is recorded in an effect trace. *)

From Stdlib Require Import ZArith Ascii String List Bool Lia.
From stdpp Require Import base decidable option list strings countable gmap.

Local Open Scope string_scope.
Local Open Scope Z_scope.

(** ** Strings

    A string is the sequence of its code units; the model has the code
    units below 256.  On these, [toLowerCase] works code unit by code unit:
    it maps the upper-case letters, which are the code units 65-90 (A to
    Z), 192-214 and 216-222 (the accented capitals of Latin-1; 215 is the
    multiplication sign), to the code unit 32 above, and leaves every other
    code unit alone. *)

Module Js.

Definition isUpperCase (n : nat) : bool :=
  (Nat.leb 65 n && Nat.leb n 90)
  || (Nat.leb 192 n && Nat.leb n 214)
  || (Nat.leb 216 n && Nat.leb n 222).

Definition lowerChar (c : ascii) : ascii :=
  let n := nat_of_ascii c in
  if isUpperCase n then ascii_of_nat (n + 32) else c.

Fixpoint toLowerCase (s : string) : string :=
  match s with
  | EmptyString => EmptyString
  | String c s' => String (lowerChar c) (toLowerCase s')
  end.

(** [startsWith s t]: [t] is a prefix of [s]. *)
Fixpoint startsWith (s t : string) : bool :=
  match t, s with
  | EmptyString, _ => true
  | String _ _, EmptyString => false
  | String b t', String a s' =>
      if Ascii.eqb a b then startsWith s' t' else false
  end.

(** [s.indexOf(t)]: the position of the first occurrence of [t] in [s],
    or [-1] when there is none. *)
Fixpoint indexOf (s t : string) : Z :=
  if startsWith s t then 0
  else match s with
       | EmptyString => -1
       | String _ s' =>
           let i := indexOf s' t in
           if i =? -1 then -1 else i + 1
       end.

Definition strLength (s : string) : Z := Z.of_nat (String.length s).

End Js.

Example toLowerCase_ex : Js.toLowerCase "SA_Admin1" = "sa_admin1".
Proof. reflexivity. Qed.

(** ['JOS\u00C9'.toLowerCase()] is ['jos\u00E9']: code unit 201 becomes 233. *)
Example toLowerCase_ex_latin1 :
  Js.toLowerCase (String (ascii_of_nat 201) "X") = String (ascii_of_nat 233) "x".
Proof. reflexivity. Qed.

Example indexOf_ex1 : Js.indexOf "master" "ste" = 2.
Proof. reflexivity. Qed.

Example indexOf_ex2 : Js.indexOf "master" "x" = -1.
Proof. reflexivity. Qed.

Example indexOf_ex3 : Js.indexOf EmptyString EmptyString = 0.
Proof. reflexivity. Qed.

(** ** JavaScript values in table cells

    The rows of both tables are [any[]]: a cell is [undefined], a boolean
    (the check-box column), a string, or a hyperlink cell value
    [{icon, title}]. *)

Definition IconPath := string.

Inductive JsVal : Type :=
| JUndefined
| JBool (b : bool)
| JStr (s : string)
| JLink (icon : IconPath) (title : string).

#[global] Instance JsVal_eq_dec : EqDecision JsVal.
Proof. solve_decision. Defined.

Definition JsVal_encode (v : JsVal) : unit + bool + string + string * string :=
  match v with
  | JUndefined => inl (inl (inl tt))
  | JBool b => inl (inl (inr b))
  | JStr s => inl (inr s)
  | JLink i t => inr (i, t)
  end.

Definition JsVal_decode (x : unit + bool + string + string * string) : JsVal :=
  match x with
  | inl (inl (inl _)) => JUndefined
  | inl (inl (inr b)) => JBool b
  | inl (inr s) => JStr s
  | inr (i, t) => JLink i t
  end.

#[global] Instance JsVal_countable : Countable JsVal.
Proof.
  apply (inj_countable' JsVal_encode JsVal_decode).
  intros []; reflexivity.
Qed.

(** What a function or an expression can throw. *)
Inductive JsError : Type :=
| TypeError
| Error (message : string).

(** The outcome of evaluating an expression: a value or a thrown error. *)
Inductive Outcome (A : Type) : Type :=
| Return (a : A)
| Throw (e : JsError).
Arguments Return {A} a.
Arguments Throw {A} e.

Definition bindO {A B} (c : Outcome A) (k : A -> Outcome B) : Outcome B :=
  match c with
  | Return a => k a
  | Throw e => Throw e
  end.

Declare Scope outcome_scope.
Delimit Scope outcome_scope with outcome.
Notation "'do' x <- c ; k" := (bindO c (fun x => k))
  (at level 10, x name, c at level 100, k at level 200) : outcome_scope.
Local Open Scope outcome_scope.

Fixpoint mapO {A B} (f : A -> Outcome B) (l : list A) : Outcome (list B) :=
  match l with
  | [] => Return []
  | x :: l' => do y <- f x; do ys <- mapO f l'; Return (y :: ys)
  end.

(** [l.filter(f)] where the callback may throw. *)
Fixpoint filterO {A} (f : A -> Outcome bool) (l : list A) : Outcome (list A) :=
  match l with
  | [] => Return []
  | x :: l' =>
      do b <- f x; do r <- filterO f l'; Return (if b then x :: r else r)
  end.

(** [l.some(f)]: stops at the first element on which [f] is true. *)
Fixpoint someO {A} (f : A -> Outcome bool) (l : list A) : Outcome bool :=
  match l with
  | [] => Return false
  | x :: l' => do b <- f x; if b then Return true else someO f l'
  end.

(** [a || b] on booleans, [b] evaluated only when [a] is false. *)
Definition orO (a b : Outcome bool) : Outcome bool :=
  do x <- a; if x then Return true else b.

Module JsOps.

(** [row[i]] *)
Definition cell (row : list JsVal) (i : nat) : JsVal :=
  default JUndefined (row !! i).

(** [v.title] *)
Definition title (v : JsVal) : Outcome JsVal :=
  match v with
  | JUndefined => Throw TypeError
  | JLink _ t => Return (JStr t)
  | JBool _ | JStr _ => Return JUndefined
  end.

(** [v?.title] *)
Definition optTitle (v : JsVal) : Outcome JsVal :=
  match v with
  | JUndefined => Return JUndefined
  | _ => title v
  end.

(** [v.toLowerCase()] *)
Definition toLowerCase (v : JsVal) : Outcome string :=
  match v with
  | JStr s => Return (Js.toLowerCase s)
  | _ => Throw TypeError
  end.

(** [v?.toLowerCase()?.indexOf(searchText) > -1]: an [undefined] receiver
    short-circuits the chain to [undefined], and [undefined > -1] is
    false. *)
Definition optLowerIndexOfGt (v : JsVal) (searchText : string) : Outcome bool :=
  match v with
  | JUndefined => Return false
  | _ => do s <- toLowerCase v; Return (Js.indexOf s searchText >? -1)
  end.

End JsOps.

(** ** The data of the page *)

(** The localised strings of [constants/strings], kept symbolic: a constant
    is its name, a formatting function is its name applied to its
    arguments. *)
Inductive Text : Type :=
| EMPTY_TEXT
| SELECT_LOGIN_AND_RUN_VALIDATION_TO_CONTINUE
| ENTER_ENTRA_ID
| ENTRA_DOMAIN_NOT_VALIDATED
| VALIDATE_ALL_LOGINS
| SELECT_LOGIN_TO_CONTINUE
| VALIDATION_DIALOG_TITLE
| LOGIN_MIGRATION_VALIDATION_MESSAGE_SUCCESS
| VALIDATION_MESSAGE_CANCELED_ERRORS (msg : string)
| VALIDATE_LOGIN_MIGRATION_VALIDATION_COMPLETED_ERRORS (msg : string)
| VALIDATION_MESSAGE_CANCELED
| VALIDATION_MESSAGE_NOT_RUN
| LOGIN_MIGRATE_BUTTON_TEXT
| NEXT_LABEL
| LOGIN_MIGRATION_REFRESHING_LOGIN_DATA
| LOGIN_MIGRATION_REFRESH_SOURCE_LOGIN_DATA_FAILED
| LOGIN_MIGRATION_REFRESH_TARGET_LOGIN_DATA_FAILED
| LOGIN_MIGRATION_REFRESH_LOGIN_DATA_SUCCESSFUL (numSourceLogins numTargetLogins : nat)
| LOGIN_MIGRATIONS_GET_LOGINS_ERROR_TITLE (which : string)
| LOGIN_MIGRATIONS_GET_LOGINS_ERROR (message : string)
| LOGINS_SELECTED (selected total : nat)
| WIZARD_CANCEL_REASON_CONTINUE_WITH_MIGRATION_LATER
| WIZARD_CANCEL_REASON_NEED_TO_REVIEW_LOGIN_SELECTION.

Inductive MessageLevel : Type := LevelError | LevelInformation.

Record WizardMessage : Type := mkMessage {
  msg_text : Text;
  msg_level : MessageLevel;
  msg_description : option Text
}.

Inductive InfoBoxStyle : Type := StyleSuccess | StyleInformation | StyleError.

(** The two validators this page registers with the wizard. *)
Inductive NavigationValidator : Type :=
| ValidatorOfPageEnter
| ValidatorOfPageLeave.

Record PageChangeInfo : Type := mkPageChangeInfo {
  newPage : Z;
  lastPage : Z
}.

(** A login record.  The interface declares four strings; at run time the
    fields hold whatever was read from a table cell. *)
Record LoginTableInfo : Type := mkLogin {
  loginName : JsVal;
  loginType : JsVal;
  defaultDatabaseName : JsVal;
  status : JsVal
}.

Definition Row := list JsVal.

(** The arguments of a call of [_filterTableList(value, selectedList?)]. *)
Definition FilterArgs : Type := (option string * option (list LoginTableInfo))%type.

Inductive TelemetryView : Type := LoginMigrationWizard | LoginMigrationSelectorPage.
Inductive TelemetryAction : Type :=
| LoginMigrationError
| LoginMigrationPreValidationSuccessful
| LoginMigrationPreValidationFailed.
Inductive LoginMigrationErrorName : Type :=
| CollectingSourceLoginsFailed
| CollectingTargetLoginsFailed.

(** A result of the pre-migration validation, as far as the page reads
    it. *)
Inductive ValidateLoginMigrationValidationState : Type :=
| Pending | Running | Succeeded | Failed | Canceled.

Record LoginMigrationValidationResult : Type := mkValidationResult {
  errors : list string;
  state : ValidateLoginMigrationValidationState
}.

(** What a telemetry event carries besides the properties of the state
    object: the ['errorMessage'] property or the ['numberLogins']
    measure. *)
Inductive TelemetryPayload : Type :=
| ErrorMessage (name : LoginMigrationErrorName)
| NumberLogins (n : nat).

(** Calls the page makes to its collaborators. *)
Inductive Effect : Type :=
| CancelReasonsList (reasons : list Text)
| GetSourceLoginsCalled
| GetSourceLoginsSettled (threw : option JsError)
| CollectTargetLoginsCalled
| CollectTargetLoginsSettled (threw : option JsError)
| LogError (view : TelemetryView) (name : LoginMigrationErrorName) (e : JsError)
| SendSqlMigrationActionEvent (view : TelemetryView) (action : TelemetryAction)
    (payload : TelemetryPayload)
| OpenDialog (title : Text) (results : list LoginMigrationValidationResult).

(** [stateMachine._loginMigrationModel], as far as this page uses it. *)
Record LoginMigrationModel : Type := mkLoginMigrationModel {
  loginsForMigration : option (list LoginTableInfo);  (* [undefined] until first assigned *)
  collectedSourceLogins : bool;
  collectedTargetLogins : bool;
  loginsOnSource : list LoginTableInfo;
  systemLoginsOnSource : list LoginTableInfo;
  loginsOnTarget : list string
}.

Definition set_loginsForMigration (v : option (list LoginTableInfo)) (r : LoginMigrationModel) : LoginMigrationModel :=
  {| loginsForMigration := v; collectedSourceLogins := collectedSourceLogins
  r; collectedTargetLogins := collectedTargetLogins r; loginsOnSource :=
  loginsOnSource r; systemLoginsOnSource := systemLoginsOnSource r;
  loginsOnTarget := loginsOnTarget r |}.

Definition set_collectedTargetLogins (v : bool) (r : LoginMigrationModel) : LoginMigrationModel :=
  {| loginsForMigration := loginsForMigration r; collectedSourceLogins :=
  collectedSourceLogins r; collectedTargetLogins := v; loginsOnSource :=
  loginsOnSource r; systemLoginsOnSource := systemLoginsOnSource r;
  loginsOnTarget := loginsOnTarget r |}.

Definition set_loginsOnTarget (v : list string) (r : LoginMigrationModel) : LoginMigrationModel :=
  {| loginsForMigration := loginsForMigration r; collectedSourceLogins :=
  collectedSourceLogins r; collectedTargetLogins := collectedTargetLogins r;
  loginsOnSource := loginsOnSource r; systemLoginsOnSource :=
  systemLoginsOnSource r; loginsOnTarget := v |}.

(** The shared migration state object, as far as this page uses it. *)
Record MigrationStateModel : Type := mkMigrationStateModel {
  _loginMigrationModel : LoginMigrationModel;
  _aadDomainName : option string;
  _targetServerInstance : option string;  (* the instance, given by its [id] *)
  _targetUserName : option string;
  _targetPassword : option string;
  _targetPort : option string;
  _validateLoginMigration : list LoginMigrationValidationResult
}.

Definition set__loginMigrationModel (v : LoginMigrationModel) (r : MigrationStateModel) : MigrationStateModel :=
  {| _loginMigrationModel := v; _aadDomainName := _aadDomainName r;
  _targetServerInstance := _targetServerInstance r; _targetUserName :=
  _targetUserName r; _targetPassword := _targetPassword r; _targetPort :=
  _targetPort r; _validateLoginMigration := _validateLoginMigration r |}.

Definition set__aadDomainName (v : option string) (r : MigrationStateModel) : MigrationStateModel :=
  {| _loginMigrationModel := _loginMigrationModel r; _aadDomainName := v;
  _targetServerInstance := _targetServerInstance r; _targetUserName :=
  _targetUserName r; _targetPassword := _targetPassword r; _targetPort :=
  _targetPort r; _validateLoginMigration := _validateLoginMigration r |}.

(** The wizard, as far as this page reads and writes it. *)
Record Wizard : Type := mkWizard {
  message : option WizardMessage;  (* [wizard.message] *)
  nextButton_label : Text;  (* [wizard.nextButton.label] *)
  nextButton_enabled : bool;  (* [wizard.nextButton.enabled] *)
  validateButton_hidden : bool;  (* [wizard.customButtons[0].hidden] *)
  navigationValidator : option NavigationValidator  (* the validator last registered by this page *)
}.

Definition set_message (v : option WizardMessage) (r : Wizard) : Wizard :=
  {| message := v; nextButton_label := nextButton_label r; nextButton_enabled
  := nextButton_enabled r; validateButton_hidden := validateButton_hidden r;
  navigationValidator := navigationValidator r |}.

Definition set_nextButton_label (v : Text) (r : Wizard) : Wizard :=
  {| message := message r; nextButton_label := v; nextButton_enabled :=
  nextButton_enabled r; validateButton_hidden := validateButton_hidden r;
  navigationValidator := navigationValidator r |}.

Definition set_nextButton_enabled (v : bool) (r : Wizard) : Wizard :=
  {| message := message r; nextButton_label := nextButton_label r;
  nextButton_enabled := v; validateButton_hidden := validateButton_hidden r;
  navigationValidator := navigationValidator r |}.

Definition set_validateButton_hidden (v : bool) (r : Wizard) : Wizard :=
  {| message := message r; nextButton_label := nextButton_label r;
  nextButton_enabled := nextButton_enabled r; validateButton_hidden := v;
  navigationValidator := navigationValidator r |}.

Definition set_navigationValidator (v : option NavigationValidator) (r : Wizard) : Wizard :=
  {| message := message r; nextButton_label := nextButton_label r;
  nextButton_enabled := nextButton_enabled r; validateButton_hidden :=
  validateButton_hidden r; navigationValidator := v |}.

(** An info box component. *)
Record InfoBox : Type := mkInfoBox {
  style : InfoBoxStyle;
  text : Text;
  display : bool  (* shown or [display: none] *)
}.

Definition set_style (v : InfoBoxStyle) (r : InfoBox) : InfoBox :=
  {| style := v; text := text r; display := display r |}.

Definition set_text (v : Text) (r : InfoBox) : InfoBox :=
  {| style := style r; text := v; display := display r |}.

Definition set_display (v : bool) (r : InfoBox) : InfoBox :=
  {| style := style r; text := text r; display := v |}.

(** A table component. *)
Record TableComponent : Type := mkTable {
  data : list Row;
  selectedRows : option (list nat);  (* [undefined] until first set *)
  height : Z
}.

Definition set_data (v : list Row) (r : TableComponent) : TableComponent :=
  {| data := v; selectedRows := selectedRows r; height := height r |}.

Definition set_selectedRows (v : option (list nat)) (r : TableComponent) : TableComponent :=
  {| data := data r; selectedRows := v; height := height r |}.

Definition set_height (v : Z) (r : TableComponent) : TableComponent :=
  {| data := data r; selectedRows := selectedRows r; height := v |}.

(** The page object [this]. *)
Record Page : Type := mkPage {
  wizard : Wizard;
  migrationStateModel : MigrationStateModel;
  _isCurrentPage : bool;
  _refreshResultsInfoBox : InfoBox;
  _windowsAuthInfoBox : bool;  (* displayed or not *)
  _refreshLoading : bool;  (* [_refreshLoading.loading] *)
  _aadDomainNameContainer : bool;  (* displayed or not *)
  _loginSelectorTable : TableComponent;
  _loginNames : list JsVal;
  _loginCount : Text;  (* [_loginCount.value] *)
  _loginTableValues : option (list Row);
  _filterTableValue : option string;
  _systemLoginTable : TableComponent;
  _systemLoginTableValues : option (list Row);
  _filterSystemLoginTableValue : option string;
  _successfullyValidatedLogins : gset JsVal;
  _successfullyValidatedEntraDomain : option string;
  debounce_filterTableList : option FilterArgs;  (* arguments of the pending debounced call *)
  effects : list Effect  (* calls made to collaborators, oldest first *)
}.

Definition set_wizard (v : Wizard) (r : Page) : Page :=
  {| wizard := v; migrationStateModel := migrationStateModel r; _isCurrentPage
  := _isCurrentPage r; _refreshResultsInfoBox := _refreshResultsInfoBox r;
  _windowsAuthInfoBox := _windowsAuthInfoBox r; _refreshLoading :=
  _refreshLoading r; _aadDomainNameContainer := _aadDomainNameContainer r;
  _loginSelectorTable := _loginSelectorTable r; _loginNames := _loginNames r;
  _loginCount := _loginCount r; _loginTableValues := _loginTableValues r;
  _filterTableValue := _filterTableValue r; _systemLoginTable :=
  _systemLoginTable r; _systemLoginTableValues := _systemLoginTableValues r;
  _filterSystemLoginTableValue := _filterSystemLoginTableValue r;
  _successfullyValidatedLogins := _successfullyValidatedLogins r;
  _successfullyValidatedEntraDomain := _successfullyValidatedEntraDomain r;
  debounce_filterTableList := debounce_filterTableList r; effects := effects r
  |}.

Definition set_migrationStateModel (v : MigrationStateModel) (r : Page) : Page :=
  {| wizard := wizard r; migrationStateModel := v; _isCurrentPage :=
  _isCurrentPage r; _refreshResultsInfoBox := _refreshResultsInfoBox r;
  _windowsAuthInfoBox := _windowsAuthInfoBox r; _refreshLoading :=
  _refreshLoading r; _aadDomainNameContainer := _aadDomainNameContainer r;
  _loginSelectorTable := _loginSelectorTable r; _loginNames := _loginNames r;
  _loginCount := _loginCount r; _loginTableValues := _loginTableValues r;
  _filterTableValue := _filterTableValue r; _systemLoginTable :=
  _systemLoginTable r; _systemLoginTableValues := _systemLoginTableValues r;
  _filterSystemLoginTableValue := _filterSystemLoginTableValue r;
  _successfullyValidatedLogins := _successfullyValidatedLogins r;
  _successfullyValidatedEntraDomain := _successfullyValidatedEntraDomain r;
  debounce_filterTableList := debounce_filterTableList r; effects := effects r
  |}.

Definition set__isCurrentPage (v : bool) (r : Page) : Page :=
  {| wizard := wizard r; migrationStateModel := migrationStateModel r;
  _isCurrentPage := v; _refreshResultsInfoBox := _refreshResultsInfoBox r;
  _windowsAuthInfoBox := _windowsAuthInfoBox r; _refreshLoading :=
  _refreshLoading r; _aadDomainNameContainer := _aadDomainNameContainer r;
  _loginSelectorTable := _loginSelectorTable r; _loginNames := _loginNames r;
  _loginCount := _loginCount r; _loginTableValues := _loginTableValues r;
  _filterTableValue := _filterTableValue r; _systemLoginTable :=
  _systemLoginTable r; _systemLoginTableValues := _systemLoginTableValues r;
  _filterSystemLoginTableValue := _filterSystemLoginTableValue r;
  _successfullyValidatedLogins := _successfullyValidatedLogins r;
  _successfullyValidatedEntraDomain := _successfullyValidatedEntraDomain r;
  debounce_filterTableList := debounce_filterTableList r; effects := effects r
  |}.

Definition set__refreshResultsInfoBox (v : InfoBox) (r : Page) : Page :=
  {| wizard := wizard r; migrationStateModel := migrationStateModel r;
  _isCurrentPage := _isCurrentPage r; _refreshResultsInfoBox := v;
  _windowsAuthInfoBox := _windowsAuthInfoBox r; _refreshLoading :=
  _refreshLoading r; _aadDomainNameContainer := _aadDomainNameContainer r;
  _loginSelectorTable := _loginSelectorTable r; _loginNames := _loginNames r;
  _loginCount := _loginCount r; _loginTableValues := _loginTableValues r;
  _filterTableValue := _filterTableValue r; _systemLoginTable :=
  _systemLoginTable r; _systemLoginTableValues := _systemLoginTableValues r;
  _filterSystemLoginTableValue := _filterSystemLoginTableValue r;
  _successfullyValidatedLogins := _successfullyValidatedLogins r;
  _successfullyValidatedEntraDomain := _successfullyValidatedEntraDomain r;
  debounce_filterTableList := debounce_filterTableList r; effects := effects r
  |}.

Definition set__windowsAuthInfoBox (v : bool) (r : Page) : Page :=
  {| wizard := wizard r; migrationStateModel := migrationStateModel r;
  _isCurrentPage := _isCurrentPage r; _refreshResultsInfoBox :=
  _refreshResultsInfoBox r; _windowsAuthInfoBox := v; _refreshLoading :=
  _refreshLoading r; _aadDomainNameContainer := _aadDomainNameContainer r;
  _loginSelectorTable := _loginSelectorTable r; _loginNames := _loginNames r;
  _loginCount := _loginCount r; _loginTableValues := _loginTableValues r;
  _filterTableValue := _filterTableValue r; _systemLoginTable :=
  _systemLoginTable r; _systemLoginTableValues := _systemLoginTableValues r;
  _filterSystemLoginTableValue := _filterSystemLoginTableValue r;
  _successfullyValidatedLogins := _successfullyValidatedLogins r;
  _successfullyValidatedEntraDomain := _successfullyValidatedEntraDomain r;
  debounce_filterTableList := debounce_filterTableList r; effects := effects r
  |}.

Definition set__refreshLoading (v : bool) (r : Page) : Page :=
  {| wizard := wizard r; migrationStateModel := migrationStateModel r;
  _isCurrentPage := _isCurrentPage r; _refreshResultsInfoBox :=
  _refreshResultsInfoBox r; _windowsAuthInfoBox := _windowsAuthInfoBox r;
  _refreshLoading := v; _aadDomainNameContainer := _aadDomainNameContainer r;
  _loginSelectorTable := _loginSelectorTable r; _loginNames := _loginNames r;
  _loginCount := _loginCount r; _loginTableValues := _loginTableValues r;
  _filterTableValue := _filterTableValue r; _systemLoginTable :=
  _systemLoginTable r; _systemLoginTableValues := _systemLoginTableValues r;
  _filterSystemLoginTableValue := _filterSystemLoginTableValue r;
  _successfullyValidatedLogins := _successfullyValidatedLogins r;
  _successfullyValidatedEntraDomain := _successfullyValidatedEntraDomain r;
  debounce_filterTableList := debounce_filterTableList r; effects := effects r
  |}.

Definition set__aadDomainNameContainer (v : bool) (r : Page) : Page :=
  {| wizard := wizard r; migrationStateModel := migrationStateModel r;
  _isCurrentPage := _isCurrentPage r; _refreshResultsInfoBox :=
  _refreshResultsInfoBox r; _windowsAuthInfoBox := _windowsAuthInfoBox r;
  _refreshLoading := _refreshLoading r; _aadDomainNameContainer := v;
  _loginSelectorTable := _loginSelectorTable r; _loginNames := _loginNames r;
  _loginCount := _loginCount r; _loginTableValues := _loginTableValues r;
  _filterTableValue := _filterTableValue r; _systemLoginTable :=
  _systemLoginTable r; _systemLoginTableValues := _systemLoginTableValues r;
  _filterSystemLoginTableValue := _filterSystemLoginTableValue r;
  _successfullyValidatedLogins := _successfullyValidatedLogins r;
  _successfullyValidatedEntraDomain := _successfullyValidatedEntraDomain r;
  debounce_filterTableList := debounce_filterTableList r; effects := effects r
  |}.

Definition set__loginSelectorTable (v : TableComponent) (r : Page) : Page :=
  {| wizard := wizard r; migrationStateModel := migrationStateModel r;
  _isCurrentPage := _isCurrentPage r; _refreshResultsInfoBox :=
  _refreshResultsInfoBox r; _windowsAuthInfoBox := _windowsAuthInfoBox r;
  _refreshLoading := _refreshLoading r; _aadDomainNameContainer :=
  _aadDomainNameContainer r; _loginSelectorTable := v; _loginNames :=
  _loginNames r; _loginCount := _loginCount r; _loginTableValues :=
  _loginTableValues r; _filterTableValue := _filterTableValue r;
  _systemLoginTable := _systemLoginTable r; _systemLoginTableValues :=
  _systemLoginTableValues r; _filterSystemLoginTableValue :=
  _filterSystemLoginTableValue r; _successfullyValidatedLogins :=
  _successfullyValidatedLogins r; _successfullyValidatedEntraDomain :=
  _successfullyValidatedEntraDomain r; debounce_filterTableList :=
  debounce_filterTableList r; effects := effects r |}.

Definition set__loginNames (v : list JsVal) (r : Page) : Page :=
  {| wizard := wizard r; migrationStateModel := migrationStateModel r;
  _isCurrentPage := _isCurrentPage r; _refreshResultsInfoBox :=
  _refreshResultsInfoBox r; _windowsAuthInfoBox := _windowsAuthInfoBox r;
  _refreshLoading := _refreshLoading r; _aadDomainNameContainer :=
  _aadDomainNameContainer r; _loginSelectorTable := _loginSelectorTable r;
  _loginNames := v; _loginCount := _loginCount r; _loginTableValues :=
  _loginTableValues r; _filterTableValue := _filterTableValue r;
  _systemLoginTable := _systemLoginTable r; _systemLoginTableValues :=
  _systemLoginTableValues r; _filterSystemLoginTableValue :=
  _filterSystemLoginTableValue r; _successfullyValidatedLogins :=
  _successfullyValidatedLogins r; _successfullyValidatedEntraDomain :=
  _successfullyValidatedEntraDomain r; debounce_filterTableList :=
  debounce_filterTableList r; effects := effects r |}.

Definition set__loginCount (v : Text) (r : Page) : Page :=
  {| wizard := wizard r; migrationStateModel := migrationStateModel r;
  _isCurrentPage := _isCurrentPage r; _refreshResultsInfoBox :=
  _refreshResultsInfoBox r; _windowsAuthInfoBox := _windowsAuthInfoBox r;
  _refreshLoading := _refreshLoading r; _aadDomainNameContainer :=
  _aadDomainNameContainer r; _loginSelectorTable := _loginSelectorTable r;
  _loginNames := _loginNames r; _loginCount := v; _loginTableValues :=
  _loginTableValues r; _filterTableValue := _filterTableValue r;
  _systemLoginTable := _systemLoginTable r; _systemLoginTableValues :=
  _systemLoginTableValues r; _filterSystemLoginTableValue :=
  _filterSystemLoginTableValue r; _successfullyValidatedLogins :=
  _successfullyValidatedLogins r; _successfullyValidatedEntraDomain :=
  _successfullyValidatedEntraDomain r; debounce_filterTableList :=
  debounce_filterTableList r; effects := effects r |}.

Definition set__loginTableValues (v : option (list Row)) (r : Page) : Page :=
  {| wizard := wizard r; migrationStateModel := migrationStateModel r;
  _isCurrentPage := _isCurrentPage r; _refreshResultsInfoBox :=
  _refreshResultsInfoBox r; _windowsAuthInfoBox := _windowsAuthInfoBox r;
  _refreshLoading := _refreshLoading r; _aadDomainNameContainer :=
  _aadDomainNameContainer r; _loginSelectorTable := _loginSelectorTable r;
  _loginNames := _loginNames r; _loginCount := _loginCount r;
  _loginTableValues := v; _filterTableValue := _filterTableValue r;
  _systemLoginTable := _systemLoginTable r; _systemLoginTableValues :=
  _systemLoginTableValues r; _filterSystemLoginTableValue :=
  _filterSystemLoginTableValue r; _successfullyValidatedLogins :=
  _successfullyValidatedLogins r; _successfullyValidatedEntraDomain :=
  _successfullyValidatedEntraDomain r; debounce_filterTableList :=
  debounce_filterTableList r; effects := effects r |}.

Definition set__filterTableValue (v : option string) (r : Page) : Page :=
  {| wizard := wizard r; migrationStateModel := migrationStateModel r;
  _isCurrentPage := _isCurrentPage r; _refreshResultsInfoBox :=
  _refreshResultsInfoBox r; _windowsAuthInfoBox := _windowsAuthInfoBox r;
  _refreshLoading := _refreshLoading r; _aadDomainNameContainer :=
  _aadDomainNameContainer r; _loginSelectorTable := _loginSelectorTable r;
  _loginNames := _loginNames r; _loginCount := _loginCount r;
  _loginTableValues := _loginTableValues r; _filterTableValue := v;
  _systemLoginTable := _systemLoginTable r; _systemLoginTableValues :=
  _systemLoginTableValues r; _filterSystemLoginTableValue :=
  _filterSystemLoginTableValue r; _successfullyValidatedLogins :=
  _successfullyValidatedLogins r; _successfullyValidatedEntraDomain :=
  _successfullyValidatedEntraDomain r; debounce_filterTableList :=
  debounce_filterTableList r; effects := effects r |}.

Definition set__systemLoginTable (v : TableComponent) (r : Page) : Page :=
  {| wizard := wizard r; migrationStateModel := migrationStateModel r;
  _isCurrentPage := _isCurrentPage r; _refreshResultsInfoBox :=
  _refreshResultsInfoBox r; _windowsAuthInfoBox := _windowsAuthInfoBox r;
  _refreshLoading := _refreshLoading r; _aadDomainNameContainer :=
  _aadDomainNameContainer r; _loginSelectorTable := _loginSelectorTable r;
  _loginNames := _loginNames r; _loginCount := _loginCount r;
  _loginTableValues := _loginTableValues r; _filterTableValue :=
  _filterTableValue r; _systemLoginTable := v; _systemLoginTableValues :=
  _systemLoginTableValues r; _filterSystemLoginTableValue :=
  _filterSystemLoginTableValue r; _successfullyValidatedLogins :=
  _successfullyValidatedLogins r; _successfullyValidatedEntraDomain :=
  _successfullyValidatedEntraDomain r; debounce_filterTableList :=
  debounce_filterTableList r; effects := effects r |}.

Definition set__systemLoginTableValues (v : option (list Row)) (r : Page) : Page :=
  {| wizard := wizard r; migrationStateModel := migrationStateModel r;
  _isCurrentPage := _isCurrentPage r; _refreshResultsInfoBox :=
  _refreshResultsInfoBox r; _windowsAuthInfoBox := _windowsAuthInfoBox r;
  _refreshLoading := _refreshLoading r; _aadDomainNameContainer :=
  _aadDomainNameContainer r; _loginSelectorTable := _loginSelectorTable r;
  _loginNames := _loginNames r; _loginCount := _loginCount r;
  _loginTableValues := _loginTableValues r; _filterTableValue :=
  _filterTableValue r; _systemLoginTable := _systemLoginTable r;
  _systemLoginTableValues := v; _filterSystemLoginTableValue :=
  _filterSystemLoginTableValue r; _successfullyValidatedLogins :=
  _successfullyValidatedLogins r; _successfullyValidatedEntraDomain :=
  _successfullyValidatedEntraDomain r; debounce_filterTableList :=
  debounce_filterTableList r; effects := effects r |}.

Definition set__filterSystemLoginTableValue (v : option string) (r : Page) : Page :=
  {| wizard := wizard r; migrationStateModel := migrationStateModel r;
  _isCurrentPage := _isCurrentPage r; _refreshResultsInfoBox :=
  _refreshResultsInfoBox r; _windowsAuthInfoBox := _windowsAuthInfoBox r;
  _refreshLoading := _refreshLoading r; _aadDomainNameContainer :=
  _aadDomainNameContainer r; _loginSelectorTable := _loginSelectorTable r;
  _loginNames := _loginNames r; _loginCount := _loginCount r;
  _loginTableValues := _loginTableValues r; _filterTableValue :=
  _filterTableValue r; _systemLoginTable := _systemLoginTable r;
  _systemLoginTableValues := _systemLoginTableValues r;
  _filterSystemLoginTableValue := v; _successfullyValidatedLogins :=
  _successfullyValidatedLogins r; _successfullyValidatedEntraDomain :=
  _successfullyValidatedEntraDomain r; debounce_filterTableList :=
  debounce_filterTableList r; effects := effects r |}.

Definition set__successfullyValidatedLogins (v : gset JsVal) (r : Page) : Page :=
  {| wizard := wizard r; migrationStateModel := migrationStateModel r;
  _isCurrentPage := _isCurrentPage r; _refreshResultsInfoBox :=
  _refreshResultsInfoBox r; _windowsAuthInfoBox := _windowsAuthInfoBox r;
  _refreshLoading := _refreshLoading r; _aadDomainNameContainer :=
  _aadDomainNameContainer r; _loginSelectorTable := _loginSelectorTable r;
  _loginNames := _loginNames r; _loginCount := _loginCount r;
  _loginTableValues := _loginTableValues r; _filterTableValue :=
  _filterTableValue r; _systemLoginTable := _systemLoginTable r;
  _systemLoginTableValues := _systemLoginTableValues r;
  _filterSystemLoginTableValue := _filterSystemLoginTableValue r;
  _successfullyValidatedLogins := v; _successfullyValidatedEntraDomain :=
  _successfullyValidatedEntraDomain r; debounce_filterTableList :=
  debounce_filterTableList r; effects := effects r |}.

Definition set__successfullyValidatedEntraDomain (v : option string) (r : Page) : Page :=
  {| wizard := wizard r; migrationStateModel := migrationStateModel r;
  _isCurrentPage := _isCurrentPage r; _refreshResultsInfoBox :=
  _refreshResultsInfoBox r; _windowsAuthInfoBox := _windowsAuthInfoBox r;
  _refreshLoading := _refreshLoading r; _aadDomainNameContainer :=
  _aadDomainNameContainer r; _loginSelectorTable := _loginSelectorTable r;
  _loginNames := _loginNames r; _loginCount := _loginCount r;
  _loginTableValues := _loginTableValues r; _filterTableValue :=
  _filterTableValue r; _systemLoginTable := _systemLoginTable r;
  _systemLoginTableValues := _systemLoginTableValues r;
  _filterSystemLoginTableValue := _filterSystemLoginTableValue r;
  _successfullyValidatedLogins := _successfullyValidatedLogins r;
  _successfullyValidatedEntraDomain := v; debounce_filterTableList :=
  debounce_filterTableList r; effects := effects r |}.

Definition set_debounce_filterTableList (v : option FilterArgs) (r : Page) : Page :=
  {| wizard := wizard r; migrationStateModel := migrationStateModel r;
  _isCurrentPage := _isCurrentPage r; _refreshResultsInfoBox :=
  _refreshResultsInfoBox r; _windowsAuthInfoBox := _windowsAuthInfoBox r;
  _refreshLoading := _refreshLoading r; _aadDomainNameContainer :=
  _aadDomainNameContainer r; _loginSelectorTable := _loginSelectorTable r;
  _loginNames := _loginNames r; _loginCount := _loginCount r;
  _loginTableValues := _loginTableValues r; _filterTableValue :=
  _filterTableValue r; _systemLoginTable := _systemLoginTable r;
  _systemLoginTableValues := _systemLoginTableValues r;
  _filterSystemLoginTableValue := _filterSystemLoginTableValue r;
  _successfullyValidatedLogins := _successfullyValidatedLogins r;
  _successfullyValidatedEntraDomain := _successfullyValidatedEntraDomain r;
  debounce_filterTableList := v; effects := effects r |}.

Definition set_effects (v : list Effect) (r : Page) : Page :=
  {| wizard := wizard r; migrationStateModel := migrationStateModel r;
  _isCurrentPage := _isCurrentPage r; _refreshResultsInfoBox :=
  _refreshResultsInfoBox r; _windowsAuthInfoBox := _windowsAuthInfoBox r;
  _refreshLoading := _refreshLoading r; _aadDomainNameContainer :=
  _aadDomainNameContainer r; _loginSelectorTable := _loginSelectorTable r;
  _loginNames := _loginNames r; _loginCount := _loginCount r;
  _loginTableValues := _loginTableValues r; _filterTableValue :=
  _filterTableValue r; _systemLoginTable := _systemLoginTable r;
  _systemLoginTableValues := _systemLoginTableValues r;
  _filterSystemLoginTableValue := _filterSystemLoginTableValue r;
  _successfullyValidatedLogins := _successfullyValidatedLogins r;
  _successfullyValidatedEntraDomain := _successfullyValidatedEntraDomain r;
  debounce_filterTableList := debounce_filterTableList r; effects := v |}.

(** ** Collaborators

    Functions and getters this file imports from other modules.  They are
    parameters of the development: every theorem holds whatever they
    compute. *)
Class Host : Type := {
  (** [getLoginStatusImage], [getLoginStatusMessage] of [api/utils] *)
  getLoginStatusImage : bool -> IconPath;
  getLoginStatusMessage : bool -> string;
  (** [getSourceLogins(stateMachine)] of [api/utils]: it may update the
      state object and may throw *)
  getSourceLogins : MigrationStateModel -> Outcome unit * MigrationStateModel;
  (** [collectTargetLogins(...)] of [api/sqlUtils] *)
  collectTargetLogins :
    string -> option string -> option string -> option string ->
    option string -> bool -> Outcome (list string);
  (** getters of the state object and of its login migration model *)
  selectedWindowsLogins : LoginMigrationModel -> bool;
  isLoginMigrationTargetValidated : MigrationStateModel -> bool;
  isWindowsAuthMigrationSupported : MigrationStateModel -> bool;
  targetServerName : MigrationStateModel -> string;
  (** [EOL] of [os] *)
  EOL : string
}.

(** ** The monad of the page's methods

    A method reads and updates [this] and either returns or throws; the
    updates made before a throw stay.  An [await] is sequencing: each handler
    is run to completion. *)
Definition M (A : Type) : Type := Page -> Outcome A * Page.

Definition ret {A} (a : A) : M A := fun p => (Return a, p).

Definition bind {A B} (c : M A) (k : A -> M B) : M B :=
  fun p => match c p with
           | (Return a, p') => k a p'
           | (Throw e, p') => (Throw e, p')
           end.

Definition get : M Page := fun p => (Return p, p).

Definition modify (f : Page -> Page) : M unit := fun p => (Return tt, f p).

Definition liftO {A} (o : Outcome A) : M A := fun p => (o, p).

(** [try { body } catch (error) { handler }] *)
Definition tryCatch {A} (body : M A) (handler : JsError -> M A) : M A :=
  fun p => match body p with
           | (Return a, p') => (Return a, p')
           | (Throw e, p') => handler e p'
           end.

Definition emit (e : Effect) : M unit :=
  modify (fun p => set_effects (effects p ++ [e]) p).

Declare Scope page_scope.
Delimit Scope page_scope with page.
Notation "x <- c ;; k" := (bind c (fun x => k))
  (at level 100, c at next level, right associativity) : page_scope.
Notation "c ;; k" := (bind c (fun _ => k))
  (at level 100, right associativity) : page_scope.
Local Open Scope page_scope.

(** Updates of nested properties. *)
Definition upd_wizard (f : Wizard -> Wizard) (p : Page) : Page :=
  set_wizard (f (wizard p)) p.
Definition upd_refreshResultsInfoBox (f : InfoBox -> InfoBox) (p : Page) : Page :=
  set__refreshResultsInfoBox (f (_refreshResultsInfoBox p)) p.
Definition upd_loginSelectorTable (f : TableComponent -> TableComponent) (p : Page) : Page :=
  set__loginSelectorTable (f (_loginSelectorTable p)) p.
Definition upd_systemLoginTable (f : TableComponent -> TableComponent) (p : Page) : Page :=
  set__systemLoginTable (f (_systemLoginTable p)) p.
Definition upd_loginMigrationModel (f : LoginMigrationModel -> LoginMigrationModel)
    (p : Page) : Page :=
  set_migrationStateModel
    (set__loginMigrationModel (f (_loginMigrationModel (migrationStateModel p)))
       (migrationStateModel p)) p.

Definition model (p : Page) : LoginMigrationModel :=
  _loginMigrationModel (migrationStateModel p).

(** [error.message]; the text of a [TypeError] is the engine's. *)
Definition error_message (e : JsError) : string :=
  match e with
  | TypeError => "TypeError"
  | Error m => m
  end.

(** Truthiness of a possibly undefined string. *)
Definition truthy (s : option string) : bool :=
  match s with
  | Some s' => negb (String.eqb s' EmptyString)
  | None => false
  end.

Section LoginSelectorPage.

Context `{host : Host}.

(** ** [selectedLogins] (lines 695-709) *)

Definition selectedLogins (p : Page) : Outcome (list LoginTableInfo) :=
  let rows := data (_loginSelectorTable p) in
  let logins := default [] (selectedRows (_loginSelectorTable p)) in
  mapO (fun rowIdx =>
          match rows !! rowIdx with
          | None => Throw TypeError
          | Some row =>
              do st <- JsOps.title (JsOps.cell row 4);
              Return {| loginName := JsOps.cell row 1;
                        loginType := JsOps.cell row 2;
                        defaultDatabaseName := JsOps.cell row 3;
                        status := st |}
          end)
       (List.filter (fun rowIdx => Nat.ltb rowIdx (length rows)) logins).

(** [_isAllSelectedLoginsValidated] (lines 543-545) *)
Definition _isAllSelectedLoginsValidated (p : Page) : Outcome bool :=
  do sel <- selectedLogins p;
  Return (forallb (fun login =>
                     bool_decide (loginName login ∈ _successfullyValidatedLogins p))
                  sel).

(** ** Next button (lines 788-799) *)

Definition updateNextButton : M unit :=
  p <- get ;;
  if _isCurrentPage p then
    modify (upd_wizard (set_nextButton_label LOGIN_MIGRATE_BUTTON_TEXT)) ;;
    modify (upd_wizard (set_nextButton_enabled
      match loginsForMigration (model p) with
      | Some l => Nat.ltb 0 (length l)
      | None => false                       (* [undefined > 0] *)
      end))
  else ret tt.

Definition resetNextButton : M unit :=
  modify (upd_wizard (set_nextButton_label NEXT_LABEL)) ;;
  modify (upd_wizard (set_nextButton_enabled true)).

(** ** [refreshAADInputBox] and [updateValuesOnSelection] (lines 711-716,
    775-786)

    [utils.updateControlDisplay(control, visible)] shows or hides the
    control. *)

Definition refreshAADInputBox : M unit :=
  p <- get ;;
  let selectedWindows := selectedWindowsLogins (model p) in
  modify (set__aadDomainNameContainer selectedWindows) ;;
  modify (upd_loginSelectorTable (set_height (if selectedWindows then 600 else 650))).

Definition updateValuesOnSelection : M unit :=
  p <- get ;;
  sel <- liftO (selectedLogins p) ;;
  modify (set__loginCount
            (LOGINS_SELECTED (length sel) (length (data (_loginSelectorTable p))))) ;;
  modify (upd_loginMigrationModel (set_loginsForMigration (Some sel))) ;;
  refreshAADInputBox ;;
  updateNextButton.

(** ** The filters (lines 215-261) *)

(** [value?.length > 0] *)
Definition hasLength (value : option string) : bool :=
  match value with
  | Some v => Js.strLength v >? 0
  | None => false
  end.

(** The callback of [this._loginTableValues.filter] with
    [searchText = value?.toLowerCase()]. *)
Definition loginRowMatches (searchText : string) (row : Row) : Outcome bool :=
  orO (JsOps.optLowerIndexOfGt (JsOps.cell row 1) searchText)        (* source login *)
 (orO (JsOps.optLowerIndexOfGt (JsOps.cell row 2) searchText)        (* login type *)
 (orO (JsOps.optLowerIndexOfGt (JsOps.cell row 3) searchText)        (* default database *)
 (orO (JsOps.optLowerIndexOfGt (JsOps.cell row 4) searchText)        (* status *)
      (do t <- JsOps.optTitle (JsOps.cell row 5);                    (* target status *)
       JsOps.optLowerIndexOfGt t searchText)))).

(** The callback of [this._systemLoginTableValues.filter]. *)
Definition systemRowMatches (searchText : string) (row : Row) : Outcome bool :=
  orO (JsOps.optLowerIndexOfGt (JsOps.cell row 0) searchText)
 (orO (JsOps.optLowerIndexOfGt (JsOps.cell row 1) searchText)
 (orO (JsOps.optLowerIndexOfGt (JsOps.cell row 2) searchText)
 (orO (JsOps.optLowerIndexOfGt (JsOps.cell row 3) searchText)
      (do t <- JsOps.optTitle (JsOps.cell row 4);
       JsOps.optLowerIndexOfGt t searchText)))).

(** [selectedLogin.loginName.toLowerCase() === login.toLowerCase()] *)
Definition nameMatches (login : JsVal) (selectedLogin : LoginTableInfo) : Outcome bool :=
  do a <- JsOps.toLowerCase (loginName selectedLogin);
  do b <- JsOps.toLowerCase login;
  Return (String.eqb a b).

(** The loop of lines 233-238, from row index [rowIdx] on. *)
Fixpoint selectRows (selectedLogins0 : list LoginTableInfo) (tableRows : list Row)
    (rowIdx : nat) : Outcome (list nat) :=
  match tableRows with
  | [] => Return []
  | row :: rest =>
      do b <- someO (nameMatches (JsOps.cell row 1)) selectedLogins0;
      do r <- selectRows selectedLogins0 rest (S rowIdx);
      Return (if b then rowIdx :: r else r)
  end.

(** The body of [_filterTableList]. *)
Definition _filterTableList (value : option string)
    (selectedList : option (list LoginTableInfo)) : M unit :=
  modify (set__filterTableValue value) ;;
  p <- get ;;
  selectedLogins0 <- liftO match selectedList with
                           | Some l => Return l          (* an array is truthy *)
                           | None => selectedLogins p
                           end ;;
  tableRows <- liftO match _loginTableValues p, value with
                     | Some rows, Some v =>
                         if hasLength value
                         then filterO (loginRowMatches (Js.toLowerCase v)) rows
                         else Return rows
                     | Some rows, None => Return rows
                     | None, _ => Return []
                     end ;;
  selectedRows0 <- liftO (selectRows selectedLogins0 tableRows 0) ;;
  modify (upd_loginSelectorTable (set_data tableRows)) ;;
  modify (upd_loginSelectorTable (set_selectedRows (Some selectedRows0))) ;;
  updateValuesOnSelection.

(** A call of [_filterTableList] goes through [@debounce(500)]: it only
    records its arguments, replacing those of a pending call; the body runs
    with them when the timer fires. *)
Definition call_filterTableList (value : option string)
    (selectedList : option (list LoginTableInfo)) : M unit :=
  modify (set_debounce_filterTableList (Some (value, selectedList))).

Definition fire_filterTableList : M unit :=
  p <- get ;;
  match debounce_filterTableList p with
  | None => ret tt
  | Some (value, selectedList) =>
      modify (set_debounce_filterTableList None) ;;
      _filterTableList value selectedList
  end.

Definition _filterSystemTableList (value : option string) : M unit :=
  modify (set__filterSystemLoginTableValue value) ;;
  p <- get ;;
  tableRows <- liftO match _systemLoginTableValues p, value with
                     | Some rows, Some v =>
                         if hasLength value
                         then filterO (systemRowMatches (Js.toLowerCase v)) rows
                         else Return rows
                     | Some rows, None => Return rows
                     | None, _ => Return []
                     end ;;
  modify (upd_systemLoginTable (set_data tableRows)).

(** ** The login queries (lines 547-619) *)

Definition thrown {A} (r : Outcome A) : option JsError :=
  match r with
  | Return _ => None
  | Throw e => Some e
  end.

Definition _getSourceLogins : M unit :=
  tryCatch
    (emit GetSourceLoginsCalled ;;
     p <- get ;;
     let r := getSourceLogins (migrationStateModel p) in
     modify (set_migrationStateModel (snd r)) ;;
     emit (GetSourceLoginsSettled (thrown (fst r))) ;;
     liftO (fst r))
    (fun error =>
       modify (set__refreshLoading false) ;;
       modify (upd_refreshResultsInfoBox (set_style StyleError)) ;;
       modify (upd_refreshResultsInfoBox
                 (set_text LOGIN_MIGRATION_REFRESH_SOURCE_LOGIN_DATA_FAILED)) ;;
       modify (upd_wizard (set_message (Some
         {| msg_level := LevelError;
            msg_text := LOGIN_MIGRATIONS_GET_LOGINS_ERROR_TITLE "source";
            msg_description :=
              Some (LOGIN_MIGRATIONS_GET_LOGINS_ERROR (error_message error)) |}))) ;;
       emit (LogError LoginMigrationWizard CollectingSourceLoginsFailed error) ;;
       emit (SendSqlMigrationActionEvent LoginMigrationSelectorPage
               LoginMigrationError (ErrorMessage CollectingSourceLoginsFailed))).

(** [isTargetInstanceSet] (lines 801-804) *)
Definition isTargetInstanceSet (m : MigrationStateModel) : bool :=
  match _targetServerInstance m with
  | Some _ => truthy (_targetUserName m) && truthy (_targetPassword m)
  | None => false
  end.

Definition _getTargetLogins : M unit :=
  tryCatch
    (p <- get ;;
     let stateMachine := migrationStateModel p in
     if isTargetInstanceSet stateMachine then
       emit CollectTargetLoginsCalled ;;
       let r := collectTargetLogins
                  (targetServerName stateMachine)
                  (_targetServerInstance stateMachine)
                  (_targetUserName stateMachine)
                  (_targetPassword stateMachine)
                  (_targetPort stateMachine)
                  (isWindowsAuthMigrationSupported stateMachine) in
       emit (CollectTargetLoginsSettled (thrown r)) ;;
       targetLogins <- liftO r ;;
       modify (upd_loginMigrationModel (set_collectedTargetLogins true)) ;;
       modify (upd_loginMigrationModel (set_loginsOnTarget targetLogins))
     else ret tt)
    (fun error =>
       modify (set__refreshLoading false) ;;
       modify (upd_refreshResultsInfoBox (set_style StyleError)) ;;
       modify (upd_refreshResultsInfoBox
                 (set_text LOGIN_MIGRATION_REFRESH_TARGET_LOGIN_DATA_FAILED)) ;;
       modify (upd_wizard (set_message (Some
         {| msg_level := LevelError;
            msg_text := LOGIN_MIGRATIONS_GET_LOGINS_ERROR_TITLE "target";
            msg_description :=
              Some (LOGIN_MIGRATIONS_GET_LOGINS_ERROR (error_message error)) |}))) ;;
       emit (LogError LoginMigrationWizard CollectingTargetLoginsFailed error) ;;
       emit (SendSqlMigrationActionEvent LoginMigrationSelectorPage
               LoginMigrationError (ErrorMessage CollectingTargetLoginsFailed))).

(** ** Refreshing the login lists (lines 621-693) *)

Definition _markRefreshDataStart : M unit :=
  modify (set__refreshLoading true) ;;
  modify (upd_wizard (set_nextButton_enabled false)) ;;
  modify (upd_refreshResultsInfoBox (set_display true)) ;;
  modify (upd_refreshResultsInfoBox (set_text LOGIN_MIGRATION_REFRESHING_LOGIN_DATA)) ;;
  modify (upd_refreshResultsInfoBox (set_style StyleInformation)).

Definition _markRefreshDataComplete (numSourceLogins numTargetLogins : nat) : M unit :=
  modify (set__refreshLoading false) ;;
  modify (upd_refreshResultsInfoBox (set_display true)) ;;
  modify (upd_refreshResultsInfoBox
            (set_text (LOGIN_MIGRATION_REFRESH_LOGIN_DATA_SUCCESSFUL
                         numSourceLogins numTargetLogins))) ;;
  modify (upd_refreshResultsInfoBox (set_style StyleSuccess)) ;;
  updateNextButton.

(** [targetLogins.some(targetLogin =>
       targetLogin.toLowerCase() === loginName.toLowerCase())] *)
Definition isLoginOnTarget (targetLogins : list string) (name : JsVal) : Outcome bool :=
  someO (fun targetLogin =>
           do b <- JsOps.toLowerCase name;
           Return (String.eqb (Js.toLowerCase targetLogin) b))
        targetLogins.

(** The target-status cell. *)
Definition targetStatusCell (onTarget : bool) : JsVal :=
  JLink (getLoginStatusImage onTarget) (getLoginStatusMessage onTarget).

(** The callback of [sourceLogins.map] (lines 659-674), without its push
    to [_loginNames]. *)
Definition loginTableRow (targetLogins : list string)
    (selectedLogins0 : list LoginTableInfo) (row : LoginTableInfo) : Outcome Row :=
  do onTarget <- isLoginOnTarget targetLogins (loginName row);
  do sel <- someO (nameMatches (loginName row)) selectedLogins0;
  Return [JBool sel; loginName row; loginType row; defaultDatabaseName row;
          status row; targetStatusCell onTarget].

(** The callback of [sourceSystemLogins.map] (lines 677-689). *)
Definition systemLoginTableRow (targetLogins : list string) (row : LoginTableInfo)
  : Outcome Row :=
  do onTarget <- isLoginOnTarget targetLogins (loginName row);
  Return [loginName row; loginType row; defaultDatabaseName row; status row;
          targetStatusCell onTarget].

(** [sourceLogins.map(row => { ...; this._loginNames.push(loginName); ... })] *)
Fixpoint mapLoginTableRows (targetLogins : list string)
    (selectedLogins0 : list LoginTableInfo) (sourceLogins : list LoginTableInfo)
  : M (list Row) :=
  match sourceLogins with
  | [] => ret []
  | row :: rest =>
      modify (fun p => set__loginNames (_loginNames p ++ [loginName row]) p) ;;
      r <- liftO (loginTableRow targetLogins selectedLogins0 row) ;;
      rs <- mapLoginTableRows targetLogins selectedLogins0 rest ;;
      ret (r :: rs)
  end.

Definition _loadLoginList (runQuery : bool) : M unit :=
  p0 <- get ;;
  let selectedLogins0 := default [] (loginsForMigration (model p0)) in
  (p <- get ;;
   if runQuery || negb (collectedSourceLogins (model p))
   then _markRefreshDataStart ;; _getSourceLogins
   else ret tt) ;;
  (p <- get ;;
   if runQuery || negb (collectedTargetLogins (model p))
   then _markRefreshDataStart ;; _getTargetLogins
   else ret tt) ;;
  p <- get ;;
  let sourceLogins := loginsOnSource (model p) in
  let sourceSystemLogins := systemLoginsOnSource (model p) in
  let targetLogins := loginsOnTarget (model p) in
  modify (set__loginNames []) ;;
  rows <- mapLoginTableRows targetLogins selectedLogins0 sourceLogins ;;
  modify (set__loginTableValues (Some rows)) ;;
  call_filterTableList (_filterTableValue p) None ;;
  systemRows <- liftO (mapO (systemLoginTableRow targetLogins) sourceSystemLogins) ;;
  modify (set__systemLoginTableValues (Some systemRows)) ;;
  _filterSystemTableList (_filterSystemLoginTableValue p) ;;
  _markRefreshDataComplete (length sourceLogins) (length targetLogins).

(** ** Navigation validators (lines 89-132, 144-146) *)

Definition errorMessage (t : Text) : WizardMessage :=
  {| msg_text := t; msg_level := LevelError; msg_description := None |}.

(** The closure registered by [onPageEnter]; it reads [this] when the wizard
    calls it. *)
Definition validatorOfPageEnter (pageChangeInfo : PageChangeInfo) : M bool :=
  modify (upd_wizard (set_message (Some (errorMessage EMPTY_TEXT)))) ;;
  if newPage pageChangeInfo <? lastPage pageChangeInfo then ret true
  else
    p <- get ;;
    sel <- liftO (selectedLogins p) ;;
    if Nat.eqb (length sel) 0
       || negb (isLoginMigrationTargetValidated (migrationStateModel p))
    then
      modify (upd_wizard (set_message
        (Some (errorMessage SELECT_LOGIN_AND_RUN_VALIDATION_TO_CONTINUE)))) ;;
      ret false
    else if selectedWindowsLogins (model p)
            && negb (truthy (_aadDomainName (migrationStateModel p)))
    then
      modify (upd_wizard (set_message (Some (errorMessage ENTER_ENTRA_ID)))) ;;
      ret false
    else if selectedWindowsLogins (model p)
            && negb (bool_decide (_successfullyValidatedEntraDomain p
                                  = _aadDomainName (migrationStateModel p)))
    then
      modify (upd_wizard (set_message
        (Some (errorMessage ENTRA_DOMAIN_NOT_VALIDATED)))) ;;
      ret false
    else
      allValidated <- liftO (_isAllSelectedLoginsValidated p) ;;
      if negb allValidated then
        modify (upd_wizard (set_message (Some (errorMessage VALIDATE_ALL_LOGINS)))) ;;
        ret false
      else ret true.

(** The closure registered by [onPageLeave]. *)
Definition validatorOfPageLeave (pageChangeInfo : PageChangeInfo) : M bool :=
  ret true.

(** The wizard asks the validator this page registered last, if any. *)
Definition runNavigationValidator (pageChangeInfo : PageChangeInfo) : M (option bool) :=
  p <- get ;;
  match navigationValidator (wizard p) with
  | Some ValidatorOfPageEnter =>
      b <- validatorOfPageEnter pageChangeInfo ;; ret (Some b)
  | Some ValidatorOfPageLeave =>
      b <- validatorOfPageLeave pageChangeInfo ;; ret (Some b)
  | None => ret None
  end.

(** ** Lifecycle hooks (lines 78-150) *)

Definition onPageEnter : M unit :=
  emit (CancelReasonsList
          [WIZARD_CANCEL_REASON_CONTINUE_WITH_MIGRATION_LATER;
           WIZARD_CANCEL_REASON_NEED_TO_REVIEW_LOGIN_SELECTION]) ;;
  modify (upd_wizard (set_validateButton_hidden false)) ;;
  modify (set__isCurrentPage true) ;;
  updateNextButton ;;
  modify (upd_wizard (set_navigationValidator (Some ValidatorOfPageEnter))) ;;
  p <- get ;;
  modify (set__windowsAuthInfoBox
            (negb (isWindowsAuthMigrationSupported (migrationStateModel p)))) ;;
  _loadLoginList false.

Definition onPageLeave : M unit :=
  modify (upd_wizard (set_validateButton_hidden true)) ;;
  modify (upd_wizard (set_navigationValidator (Some ValidatorOfPageLeave))) ;;
  modify (set__isCurrentPage false) ;;
  resetNextButton.

(** [handleStateChange] (lines 152-153) does nothing. *)
Definition handleStateChange : M unit := ret tt.

(** ** Pre-migration validation (lines 718-773, 806-832) *)

(** [loginsForMigration.length], which throws on [undefined]. *)
Definition numberLogins (p : Page) : Outcome nat :=
  match loginsForMigration (model p) with
  | Some l => Return (length l)
  | None => Throw TypeError
  end.

Definition _logLoginMigrationPreValidationSuccessful : M unit :=
  p <- get ;;
  n <- liftO (numberLogins p) ;;
  emit (SendSqlMigrationActionEvent LoginMigrationSelectorPage
          LoginMigrationPreValidationSuccessful (NumberLogins n)).

Definition _logLoginMigrationPreValidationFailed : M unit :=
  p <- get ;;
  n <- liftO (numberLogins p) ;;
  emit (SendSqlMigrationActionEvent LoginMigrationSelectorPage
          LoginMigrationPreValidationFailed (NumberLogins n)).

(** [errors.join(EOL)] *)
Fixpoint join (sep : string) (l : list string) : string :=
  match l with
  | [] => EmptyString
  | [x] => x
  | x :: rest => x ++ sep ++ join sep rest
  end.

Definition isCanceled (r : LoginMigrationValidationResult) : bool :=
  match state r with
  | Canceled => true
  | _ => false
  end.

Definition updateValidationResultUI (initializing : bool) : M unit :=
  p0 <- get ;;
  let succeeded := isLoginMigrationTargetValidated (migrationStateModel p0) in
  modify (set__successfullyValidatedLogins ∅) ;;
  if succeeded then
    _logLoginMigrationPreValidationSuccessful ;;
    p <- get ;;
    sel <- liftO (selectedLogins p) ;;
    modify (fun q => set__successfullyValidatedLogins
                       (fold_left (fun s login => {[ loginName login ]} ∪ s) sel
                                  (_successfullyValidatedLogins q)) q) ;;
    (if selectedWindowsLogins (model p)
     then modify (set__successfullyValidatedEntraDomain
                    (_aadDomainName (migrationStateModel p)))
     else ret tt) ;;
    modify (upd_wizard (set_message (Some
      {| msg_level := LevelInformation;
         msg_text := LOGIN_MIGRATION_VALIDATION_MESSAGE_SUCCESS;
         msg_description := None |})))
  else
    _logLoginMigrationPreValidationFailed ;;
    p <- get ;;
    let results := _validateLoginMigration (migrationStateModel p) in
    let hasResults := Nat.ltb 0 (length results) in
    if initializing && negb hasResults then ret tt
    else
      let canceled := existsb isCanceled results in
      let errs := flat_map errors results in
      let errorsMessage := join EOL errs in
      let hasErrors := Nat.ltb 0 (length errs) in
      let msg :=
        if hasResults then
          if hasErrors then
            if canceled then VALIDATION_MESSAGE_CANCELED_ERRORS errorsMessage
            else VALIDATE_LOGIN_MIGRATION_VALIDATION_COMPLETED_ERRORS errorsMessage
          else VALIDATION_MESSAGE_CANCELED
        else VALIDATION_MESSAGE_NOT_RUN in
      modify (upd_wizard (set_message (Some (errorMessage msg)))).

(** The click handler of the validate button.  The dialog is a
    collaborator: opening it is recorded with the results passed. *)
Definition _validateLoginPreMigration : M unit :=
  p <- get ;;
  if match loginsForMigration (model p) with
     | Some l => Nat.leb (length l) 0
     | None => false                        (* [undefined <= 0] *)
     end
  then
    modify (upd_wizard (set_message (Some (errorMessage SELECT_LOGIN_TO_CONTINUE))))
  else
    emit (OpenDialog VALIDATION_DIALOG_TITLE
            (_validateLoginMigration (migrationStateModel p))).

(** ** Event handlers registered by the page (lines 66-68, 155-213, 276-278,
    355-357) *)

Inductive PageEvent : Type :=
| PageEnter
| PageLeave
| StateChange
| RowSelected
| SearchTextChanged (value : option string)
| SystemSearchTextChanged (value : option string)
| AadDomainNameChanged (value : option string)
| RefreshClicked
| ValidateClicked
| ValidationDialogClosed
| DebounceTimer.

Definition handle (ev : PageEvent) : M unit :=
  match ev with
  | PageEnter => onPageEnter
  | PageLeave => onPageLeave
  | StateChange => handleStateChange
  | RowSelected => updateValuesOnSelection
  | SearchTextChanged value =>
      p <- get ;;
      call_filterTableList value (Some (default [] (loginsForMigration (model p))))
  | SystemSearchTextChanged value => _filterSystemTableList value
  | AadDomainNameChanged value =>
      modify (fun p => set_migrationStateModel
                (set__aadDomainName (Some (default EmptyString value)) (migrationStateModel p)) p)
  | RefreshClicked => _loadLoginList true
  | ValidateClicked => _validateLoginPreMigration
  | ValidationDialogClosed => updateValidationResultUI false
  | DebounceTimer => fire_filterTableList
  end.

(** The page after a sequence of events; a handler that throws leaves the
    page as it was at the throw. *)
Definition step (ev : PageEvent) (p : Page) : Page := snd (handle ev p).

Definition run (evs : list PageEvent) (p : Page) : Page := fold_left (fun q ev => step ev q) evs p.

End LoginSelectorPage.

(** * Properties *)

(** ** Substrings *)

(** [t] occurs in [s]. *)
Definition contains (s t : string) : Prop :=
  exists pre post : string, s = (pre ++ t ++ post)%string.

(** *** Letter case

    Equality of texts up to letter case is stated by the table of the
    letters that have two forms, not by [toLowerCase]. *)

(** The code units of the upper-case letters, each with the code unit of
    its lower-case form: A-Z with a-z, 192-214 with 224-246 and 216-222
    with 248-254. *)
Definition casePairs : list (N * N) :=
  map (fun u => (N.of_nat u, N.of_nat (u + 32)))
      (seq 65 26 ++ seq 192 23 ++ seq 216 7).

(** [c] and [d] are the same code unit or the two forms of one letter. *)
Definition sameLetter (c d : ascii) : bool :=
  let m := N_of_ascii c in
  let n := N_of_ascii d in
  N.eqb m n
  || existsb (fun pair =>
                (N.eqb m (fst pair) && N.eqb n (snd pair))
                || (N.eqb m (snd pair) && N.eqb n (fst pair)))
             casePairs.

Fixpoint equalCIb (a b : string) : bool :=
  match a, b with
  | EmptyString, EmptyString => true
  | String c a', String d b' => sameLetter c d && equalCIb a' b'
  | _, _ => false
  end.

(** Two strings are equal when case is ignored: they have the same length
    and, position by position, the same letter. *)
Definition equalCI (a b : string) : Prop := equalCIb a b = true.

(** [field] contains [s] when case is ignored: a part of [field] equals
    [s] up to case. *)
Definition containsCI (s field : string) : Prop :=
  exists pre mid post : string,
    field = (pre ++ mid ++ post)%string /\ equalCI mid s.

(** Every code unit of the model. *)
Definition allCodeUnits : list ascii := map ascii_of_nat (seq 0 256).

(** The two forms of [E] with acute accent, code units 201 and 233, are the
    same letter; the multiplication and division signs, 215 and 247, are
    not. *)
Example equalCI_ex_latin1 :
  equalCI (String (ascii_of_nat 201) "x") (String (ascii_of_nat 233) "X") /\
  sameLetter (ascii_of_nat 215) (ascii_of_nat 247) = false.
Proof. split; reflexivity. Qed.

Lemma startsWith_nil (s : string) : Js.startsWith s EmptyString = true.
Proof. destruct s; reflexivity. Qed.

Lemma startsWith_cons (a b : ascii) (s t : string) :
  Js.startsWith (String a s) (String b t) =
  if Ascii.eqb a b then Js.startsWith s t else false.
Proof. reflexivity. Qed.

Lemma startsWith_spec (s t : string) :
  Js.startsWith s t = true <-> exists post, s = (t ++ post)%string.
Proof.
  revert s; induction t as [|b t IH]; intros s.
  - rewrite startsWith_nil. split; [intros _; exists s; reflexivity | reflexivity].
  - destruct s as [|a s].
    + simpl. split; [discriminate | intros [post H]; discriminate].
    + rewrite startsWith_cons. destruct (Ascii.eqb a b) eqn:E.
      * apply Ascii.eqb_eq in E; subst b. rewrite IH.
        split; intros [post H]; exists post; [now rewrite H | now inversion H].
      * apply Ascii.eqb_neq in E.
        split; [discriminate | intros [post H]; inversion H; congruence].
Qed.

Lemma indexOf_nil (t : string) :
  Js.indexOf EmptyString t = if Js.startsWith EmptyString t then 0 else -1.
Proof. reflexivity. Qed.

Lemma indexOf_cons (a : ascii) (s t : string) :
  Js.indexOf (String a s) t =
  if Js.startsWith (String a s) t then 0
  else if Js.indexOf s t =? -1 then -1 else Js.indexOf s t + 1.
Proof. reflexivity. Qed.

Lemma indexOf_range (s t : string) :
  Js.indexOf s t = -1 \/ 0 <= Js.indexOf s t.
Proof.
  induction s as [|a s IH].
  - rewrite indexOf_nil. destruct (Js.startsWith EmptyString t); lia.
  - rewrite indexOf_cons. destruct (Js.startsWith (String a s) t); [lia|].
    destruct (Z.eqb_spec (Js.indexOf s t) (-1)); lia.
Qed.

Lemma indexOf_contains (s t : string) :
  (Js.indexOf s t >? -1) = true <-> contains s t.
Proof.
  rewrite Z.gtb_lt.
  induction s as [|a s IH].
  - rewrite indexOf_nil. destruct (Js.startsWith EmptyString t) eqn:E.
    + split; [intros _ | lia].
      apply startsWith_spec in E as [post E]. exists EmptyString, post. exact E.
    + split; [lia|]. intros [pre [post H]].
      destruct pre; [|discriminate]. simpl in H.
      assert (Js.startsWith EmptyString t = true) by (apply startsWith_spec; eauto).
      congruence.
  - rewrite indexOf_cons. destruct (Js.startsWith (String a s) t) eqn:E.
    + split; [intros _ | lia].
      apply startsWith_spec in E as [post E]. exists EmptyString, post. exact E.
    + destruct (Z.eqb_spec (Js.indexOf s t) (-1)) as [Hm|Hm].
      * split; [lia|]. intros [pre [post H]].
        destruct pre as [|c pre].
        -- simpl in H.
           assert (Js.startsWith (String a s) t = true)
             by (apply startsWith_spec; eauto).
           congruence.
        -- simpl in H. inversion H; subst.
           assert (-1 < Js.indexOf (pre ++ t ++ post) t)
             by (apply IH; exists pre, post; reflexivity).
           lia.
      * destruct (indexOf_range s t) as [?|Hr]; [lia|].
        split; [intros _ | lia].
        destruct IH as [IH _]. destruct IH as [pre [post H]]; [lia|].
        exists (String a pre), post. simpl. now rewrite H.
Qed.

#[global] Instance contains_dec (s t : string) : Decision (contains s t).
Proof.
  destruct (Js.indexOf s t >? -1) eqn:E.
  - left. now apply indexOf_contains.
  - right. intros H. apply indexOf_contains in H. congruence.
Defined.

(** [toLowerCase] identifies exactly the texts that are equal up to case. *)

Lemma allCodeUnits_complete (c : ascii) : In c allCodeUnits.
Proof.
  rewrite <- (ascii_nat_embedding c). apply in_map, in_seq.
  pose proof (nat_ascii_bounded c). lia.
Qed.

Lemma lowerChar_sameLetter (c d : ascii) :
  Ascii.eqb (Js.lowerChar c) (Js.lowerChar d) = sameLetter c d.
Proof.
  assert (forallb (fun c =>
            forallb (fun d =>
              Bool.eqb (Ascii.eqb (Js.lowerChar c) (Js.lowerChar d)) (sameLetter c d))
              allCodeUnits) allCodeUnits = true) as H
    by (vm_compute; reflexivity).
  rewrite forallb_forall in H. specialize (H c (allCodeUnits_complete c)).
  rewrite forallb_forall in H. specialize (H d (allCodeUnits_complete d)).
  now apply Bool.eqb_prop in H.
Qed.

Lemma toLowerCase_eq_equalCI (a b : string) :
  Js.toLowerCase a = Js.toLowerCase b <-> equalCI a b.
Proof.
  unfold equalCI. revert b; induction a as [|c a IH]; intros [|d b];
    cbn [Js.toLowerCase equalCIb]; try (split; congruence).
  rewrite andb_true_iff, <- IH, <- lowerChar_sameLetter, Ascii.eqb_eq.
  split; [intros [= H1 H2]; auto | intros [-> ->]; reflexivity].
Qed.


Lemma toLowerCase_app (a b : string) :
  Js.toLowerCase (a ++ b) = (Js.toLowerCase a ++ Js.toLowerCase b)%string.
Proof.
  induction a as [|c a IH]; [reflexivity|].
  change (String (Js.lowerChar c) (Js.toLowerCase (a ++ b)) =
          String (Js.lowerChar c) (Js.toLowerCase a ++ Js.toLowerCase b)%string).
  now rewrite IH.
Qed.

Lemma toLowerCase_app_inv (s x y : string) :
  Js.toLowerCase s = (x ++ y)%string ->
  exists a b, s = (a ++ b)%string /\ Js.toLowerCase a = x /\ Js.toLowerCase b = y.
Proof.
  revert s; induction x as [|c x IH]; intros s H.
  - exists EmptyString, s. auto.
  - destruct s as [|d s]; [discriminate|]. cbn in H. injection H as Hc H.
    destruct (IH s H) as (a & b & -> & Ha & Hb).
    exists (String d a), b. cbn. rewrite Hc, Ha. auto.
Qed.

Lemma contains_lower_containsCI (s field : string) :
  contains (Js.toLowerCase field) (Js.toLowerCase s) <-> containsCI s field.
Proof.
  unfold contains, containsCI. split.
  - intros (pre' & post' & H).
    apply toLowerCase_app_inv in H as (pre & rest & -> & _ & H).
    apply toLowerCase_app_inv in H as (mid & post & -> & H & _).
    exists pre, mid, post. split; [reflexivity|]. now apply toLowerCase_eq_equalCI.
  - intros (pre & mid & post & -> & H). apply toLowerCase_eq_equalCI in H.
    exists (Js.toLowerCase pre), (Js.toLowerCase post).
    now rewrite !toLowerCase_app, H.
Qed.

#[global] Instance containsCI_dec (s field : string) : Decision (containsCI s field).
Proof.
  destruct (decide (contains (Js.toLowerCase field) (Js.toLowerCase s))) as [H|H].
  - left. now apply contains_lower_containsCI.
  - right. intros H'. now apply contains_lower_containsCI in H'.
Defined.

Lemma contains_empty (s : string) : contains s EmptyString.
Proof. exists EmptyString, s. reflexivity. Qed.

(** ** Outcomes of list traversals *)

Lemma someO_Return {A} (f : A -> Outcome bool) (l : list A) (b : bool) :
  someO f l = Return b ->
  (b = true <-> exists x, x ∈ l /\ f x = Return true).
Proof.
  revert b; induction l as [|x l IH]; intros b; simpl.
  - intros [= <-]. split; [discriminate|]. intros [x [Hx _]]. inversion Hx.
  - destruct (f x) as [[|]|e] eqn:E; simpl; [| |discriminate].
    + intros [= <-]. split; [|reflexivity]. intros _. exists x. split; [left|exact E].
    + intros H. rewrite (IH b H). split.
      * intros [y [Hy Hf]]. exists y. split; [now right|exact Hf].
      * intros [y [Hy Hf]]. inversion Hy; subst; [congruence|]. exists y. now split.
Qed.



Lemma mapO_Return {A B} (f : A -> Outcome B) (l : list A) (r : list B) :
  mapO f l = Return r -> Forall2 (fun x y => f x = Return y) l r.
Proof.
  revert r; induction l as [|x l IH]; intros r; simpl.
  - intros [= <-]. constructor.
  - destruct (f x) as [y|e] eqn:E; simpl; [|discriminate].
    destruct (mapO f l) as [ys|e] eqn:E'; simpl; [|discriminate].
    intros [= <-]. constructor; [exact E | now apply IH].
Qed.

Lemma mapO_map {A B} (f : A -> Outcome B) (g : A -> B) (l : list A) :
  Forall (fun x => f x = Return (g x)) l ->
  mapO f l = Return (map g l).
Proof.
  induction 1 as [|x l Hx _ IH]; simpl; [reflexivity|].
  now rewrite Hx, IH.
Qed.

(** ** Shapes of rows

    The rows [_loadLoginList] builds from logins whose four fields are
    strings. *)

Definition isLoginRow (row : Row) : bool :=
  match row with
  | [JBool _; JStr _; JStr _; JStr _; JStr _; JLink _ _] => true
  | _ => false
  end.

Definition isSystemLoginRow (row : Row) : bool :=
  match row with
  | [JStr _; JStr _; JStr _; JStr _; JLink _ _] => true
  | _ => false
  end.

Definition isStringLogin (l : LoginTableInfo) : bool :=
  match loginName l, loginType l, defaultDatabaseName l, status l with
  | JStr _, JStr _, JStr _, JStr _ => true
  | _, _, _, _ => false
  end.




Lemma isLoginRow_inv (row : Row) :
  isLoginRow row = true ->
  exists b n t d st ic ti,
    row = [JBool b; JStr n; JStr t; JStr d; JStr st; JLink ic ti].
Proof.
  unfold isLoginRow. intros H.
  repeat match type of H with
         | match ?x with _ => _ end = true =>
             destruct x; simpl in H; try discriminate H
         end.
  do 7 eexists. reflexivity.
Qed.



(** ** Running the monad *)

Section Frame.

Context `{host : Host}.

Lemma run_bind_Return {A B} (c : M A) (k : A -> M B) (p p' : Page) (a : A) :
  c p = (Return a, p') -> bind c k p = k a p'.
Proof. unfold bind. now intros ->. Qed.

Lemma run_bind_Throw {A B} (c : M A) (k : A -> M B) (p p' : Page) (e : JsError) :
  c p = (Throw e, p') -> bind c k p = (Throw e, p').
Proof. unfold bind. now intros ->. Qed.

Lemma run_bind_modify {B} (g : Page -> Page) (k : unit -> M B) (p : Page) :
  bind (modify g) k p = k tt (g p).
Proof. reflexivity. Qed.

Lemma run_bind_get {B} (k : Page -> M B) (p : Page) : bind get k p = k p p.
Proof. reflexivity. Qed.

Lemma run_bind_liftO {A B} (o : Outcome A) (k : A -> M B) (p : Page) :
  bind (liftO o) k p =
  match o with
  | Return a => k a p
  | Throw e => (Throw e, p)
  end.
Proof. reflexivity. Qed.

Lemma run_bind_inv {A B} (c : M A) (k : A -> M B) (p q : Page) (b : B) :
  bind c k p = (Return b, q) ->
  exists a p', c p = (Return a, p') /\ k a p' = (Return b, q).
Proof.
  unfold bind. destruct (c p) as [[a|e] p']; [eauto | discriminate].
Qed.

(** [c] leaves the observation [f] of the page as it was, whether it
    returns or throws. *)
Definition preserves {X A} (f : Page -> X) (c : M A) : Prop :=
  forall p, f (snd (c p)) = f p.

Lemma preserves_ret {X A} (f : Page -> X) (a : A) : preserves f (ret a).
Proof. intros p. reflexivity. Qed.

Lemma preserves_get {X} (f : Page -> X) : preserves f get.
Proof. intros p. reflexivity. Qed.

Lemma preserves_liftO {X A} (f : Page -> X) (o : Outcome A) : preserves f (liftO o).
Proof. intros p. reflexivity. Qed.

Lemma preserves_modify {X} (f : Page -> X) (g : Page -> Page) :
  (forall p, f (g p) = f p) -> preserves f (modify g).
Proof. intros H p. apply H. Qed.

Lemma preserves_bind {X A B} (f : Page -> X) (c : M A) (k : A -> M B) :
  preserves f c -> (forall a, preserves f (k a)) -> preserves f (bind c k).
Proof.
  intros Hc Hk p. unfold bind. specialize (Hc p).
  destruct (c p) as [[a|e] p']; simpl in *; [|exact Hc].
  now rewrite Hk.
Qed.

Lemma preserves_tryCatch {X A} (f : Page -> X) (c : M A) (h : JsError -> M A) :
  preserves f c -> (forall e, preserves f (h e)) -> preserves f (tryCatch c h).
Proof.
  intros Hc Hh p. unfold tryCatch. specialize (Hc p).
  destruct (c p) as [[a|e] p']; simpl in *; [exact Hc|].
  now rewrite Hh.
Qed.

Lemma preserves_mapLoginTableRows {X} (f : Page -> X) targetLogins sel sourceLogins :
  (forall v p, f (set__loginNames v p) = f p) ->
  preserves f (mapLoginTableRows targetLogins sel sourceLogins).
Proof.
  intros H. induction sourceLogins as [|row rest IH]; simpl.
  - apply preserves_ret.
  - apply preserves_bind; [apply preserves_modify; intros; apply H|intros _].
    apply preserves_bind; [apply preserves_liftO|intros r].
    apply preserves_bind; [exact IH|intros rs]. apply preserves_ret.
Qed.

End Frame.

(** Decomposes a goal [preserves f c] along the structure of [c]. *)
Ltac frame_step :=
  lazymatch goal with
  | |- preserves _ (ret _) => apply preserves_ret
  | |- preserves _ get => apply preserves_get
  | |- preserves _ (liftO _) => apply preserves_liftO
  | |- preserves _ (modify _) => apply preserves_modify; intros; reflexivity
  | |- preserves _ (mapLoginTableRows _ _ _) =>
      apply preserves_mapLoginTableRows; intros; reflexivity
  | |- preserves _ (bind _ _) => apply preserves_bind; [|intros ?]
  | |- preserves _ (tryCatch _ _) => apply preserves_tryCatch; [|intros ?]
  | |- preserves _ (if ?b then _ else _) => destruct b
  | |- preserves _ (match ?x with _ => _ end) => destruct x
  | |- preserves _ (let _ := _ in _) => cbv zeta
  end.

Ltac frame :=
  unfold handle, onPageEnter, onPageLeave, handleStateChange,
    updateValidationResultUI, _validateLoginPreMigration,
    _logLoginMigrationPreValidationSuccessful, _logLoginMigrationPreValidationFailed,
    _loadLoginList, _markRefreshDataComplete, _markRefreshDataStart,
    _getTargetLogins, _getSourceLogins, _filterSystemTableList,
    fire_filterTableList, call_filterTableList, _filterTableList,
    updateValuesOnSelection, refreshAADInputBox, resetNextButton,
    updateNextButton, emit;
  repeat frame_step.

Section FrameFacts.

Context `{host : Host}.

(** What the page records about the validate button and about being the
    current page. *)
Definition buttonAndCurrent (p : Page) : bool * bool :=
  (validateButton_hidden (wizard p), _isCurrentPage p).

Lemma buttonAndCurrent_inv (p : Page) (a b : bool) :
  buttonAndCurrent p = (a, b) ->
  validateButton_hidden (wizard p) = a /\ _isCurrentPage p = b.
Proof. unfold buttonAndCurrent. intros [= -> ->]. split; reflexivity. Qed.

Lemma loadLoginList_buttonAndCurrent (runQuery : bool) :
  preserves buttonAndCurrent (_loadLoginList runQuery).
Proof. frame. Qed.

Lemma loadLoginList_navigationValidator (runQuery : bool) :
  preserves (fun p => navigationValidator (wizard p)) (_loadLoginList runQuery).
Proof. frame. Qed.

Lemma handle_buttonAndCurrent (ev : PageEvent) :
  ev <> PageEnter -> ev <> PageLeave -> preserves buttonAndCurrent (handle ev).
Proof. intros H1 H2. destruct ev; try congruence; frame. Qed.

End FrameFacts.

(** ** [selectedLogins] and [updateValuesOnSelection] *)

Section Selection.

Context `{host : Host}.

(** The record [selectedLogins] builds from a row whose status cell is a
    string: the status is read through [.title], which a string lacks. *)
Definition rowLogin (row : Row) : LoginTableInfo :=
  {| loginName := JsOps.cell row 1;
     loginType := JsOps.cell row 2;
     defaultDatabaseName := JsOps.cell row 3;
     status := JUndefined |}.

Definition selectedIndices (p : Page) : list nat :=
  default [] (selectedRows (_loginSelectorTable p)).

Lemma selectedLogins_rows (p : Page) :
  forallb isLoginRow (data (_loginSelectorTable p)) = true ->
  selectedLogins p =
  Return (map rowLogin (omap (fun i => data (_loginSelectorTable p) !! i)
                             (selectedIndices p))).
Proof.
  intros Hrows. unfold selectedLogins, selectedIndices. cbv zeta.
  set (rows := data (_loginSelectorTable p)) in *. unfold Row in *.
  induction (default [] (selectedRows (_loginSelectorTable p))) as [|i l IH].
  - reflexivity.
  - cbn [List.filter omap list_omap].
    destruct (rows !! i) as [row|] eqn:Hi.
    + assert (i < length rows)%nat as Hlt by (eapply lookup_lt_Some; eauto).
      apply Nat.ltb_lt in Hlt. rewrite Hlt. cbn [mapO]. rewrite Hi.
      assert (isLoginRow row = true) as Hrow.
      { rewrite forallb_forall in Hrows. apply Hrows.
        apply list_elem_of_In. eapply list_elem_of_lookup_2; eauto. }
      apply isLoginRow_inv in Hrow as (b & n & t & d & st & ic & ti & ->).
      cbn. cbn in IH. rewrite IH. reflexivity.
    + apply lookup_ge_None in Hi.
      assert (Nat.ltb i (length rows) = false) as -> by (apply Nat.ltb_ge; lia).
      exact IH.
Qed.


(** The page [updateNextButton] leaves. *)
Definition afterNextButton (p : Page) : Page :=
  if _isCurrentPage p then
    upd_wizard (set_nextButton_enabled
                  match loginsForMigration (model p) with
                  | Some l => Nat.ltb 0 (length l)
                  | None => false
                  end)
      (upd_wizard (set_nextButton_label LOGIN_MIGRATE_BUTTON_TEXT) p)
  else p.

Lemma updateNextButton_run (p : Page) :
  updateNextButton p = (Return tt, afterNextButton p).
Proof.
  unfold updateNextButton, afterNextButton, bind, get, modify, ret.
  destruct (_isCurrentPage p); reflexivity.
Qed.

(** The page a normal run of [updateValuesOnSelection] leaves. *)
Definition afterSelection (sel : list LoginTableInfo) (p : Page) : Page :=
  let total := length (data (_loginSelectorTable p)) in
  let p1 := set__loginCount (LOGINS_SELECTED (length sel) total) p in
  let p2 := upd_loginMigrationModel (set_loginsForMigration (Some sel)) p1 in
  let windows := selectedWindowsLogins (model p2) in
  let p3 := set__aadDomainNameContainer windows p2 in
  let p4 := upd_loginSelectorTable (set_height (if windows then 600 else 650)) p3 in
  if _isCurrentPage p4 then
    upd_wizard (set_nextButton_enabled (Nat.ltb 0 (length sel)))
      (upd_wizard (set_nextButton_label LOGIN_MIGRATE_BUTTON_TEXT) p4)
  else p4.

Lemma updateValuesOnSelection_run (p : Page) :
  updateValuesOnSelection p =
  match selectedLogins p with
  | Return sel => (Return tt, afterSelection sel p)
  | Throw e => (Throw e, p)
  end.
Proof.
  unfold updateValuesOnSelection, refreshAADInputBox, updateNextButton,
    afterSelection, bind, get, liftO, modify, ret.
  destruct (selectedLogins p) as [sel|e]; [|reflexivity].
  cbn. destruct (_isCurrentPage p); reflexivity.
Qed.

End Selection.

(** ** Sample collaborators and pages *)

Module Sample.

Definition alice : LoginTableInfo :=
  mkLogin (JStr "Alice") (JStr "sql_login") (JStr "master") (JStr "Enabled").
Definition bob : LoginTableInfo :=
  mkLogin (JStr "CORP\bob") (JStr "windows_login") (JStr "sales") (JStr "Disabled").
Definition sa : LoginTableInfo :=
  mkLogin (JStr "sa") (JStr "sql_login") (JStr "master") (JStr "Enabled").

(** Collaborators whose two queries settle as given and whose target
    validation has the given result.  A successful source query stores
    [alice] and [bob] and the system login [sa]. *)
Definition host (sourceQuery : Outcome unit) (targetQuery : Outcome (list string))
    (validated : bool) : Host :=
  {| getLoginStatusImage := fun b =>
       if b then "completedMigration.svg" else "notFound.svg";
     getLoginStatusMessage := fun b =>
       if b then "Login found on target" else "Login not found on target";
     getSourceLogins := fun m =>
       (sourceQuery,
        match sourceQuery with
        | Return _ =>
            set__loginMigrationModel
              {| loginsForMigration := loginsForMigration (_loginMigrationModel m);
                 collectedSourceLogins := true;
                 collectedTargetLogins := collectedTargetLogins (_loginMigrationModel m);
                 loginsOnSource := [alice; bob];
                 systemLoginsOnSource := [sa];
                 loginsOnTarget := loginsOnTarget (_loginMigrationModel m) |} m
        | Throw _ => m
        end);
     collectTargetLogins := fun _ _ _ _ _ _ => targetQuery;
     selectedWindowsLogins := fun m =>
       existsb (fun l => bool_decide (loginType l = JStr "windows_login"))
               (default [] (loginsForMigration m));
     isLoginMigrationTargetValidated := fun _ => validated;
     isWindowsAuthMigrationSupported := fun _ => true;
     targetServerName := fun _ => "target.database.windows.net";
     EOL := String (ascii_of_nat 10) EmptyString |}.

(** Both queries succeed; the target has [alice] under another case. *)
Definition working : Host := host (Return tt) (Return ["ALICE"; "carol"]) true.

(** Both queries fail. *)
Definition failing : Host :=
  host (Throw (Error "connection lost")) (Throw (Error "login failed")) false.

Definition initialModel : LoginMigrationModel :=
  {| loginsForMigration := None;
     collectedSourceLogins := false;
     collectedTargetLogins := false;
     loginsOnSource := [];
     systemLoginsOnSource := [];
     loginsOnTarget := [] |}.

Definition initialState : MigrationStateModel :=
  {| _loginMigrationModel := initialModel;
     _aadDomainName := None;
     _targetServerInstance := Some "instance-id";
     _targetUserName := Some "admin";
     _targetPassword := Some "secret";
     _targetPort := None;
     _validateLoginMigration := [] |}.

(** The page as its constructor and [registerContent] leave it, for a state
    object whose logins for migration are not assigned yet: the tables are
    empty, [_filterSystemTableList('')] has run, and the call
    [_filterTableList('', loginsForMigration)] of line 360 is pending. *)
Definition initialPage : Page :=
  {| wizard := {| message := None;
                  nextButton_label := NEXT_LABEL;
                  nextButton_enabled := true;
                  validateButton_hidden := true;
                  navigationValidator := None |};
     migrationStateModel := initialState;
     _isCurrentPage := false;
     _refreshResultsInfoBox :=
       {| style := StyleSuccess; text := EMPTY_TEXT; display := false |};
     _windowsAuthInfoBox := false;
     _refreshLoading := false;
     _aadDomainNameContainer := false;
     _loginSelectorTable := {| data := []; selectedRows := None; height := 600 |};
     _loginNames := [];
     _loginCount := LOGINS_SELECTED 0 0;
     _loginTableValues := None;
     _filterTableValue := None;
     _systemLoginTable := {| data := []; selectedRows := None; height := 600 |};
     _systemLoginTableValues := None;
     _filterSystemLoginTableValue := Some EmptyString;
     _successfullyValidatedLogins := ∅;
     _successfullyValidatedEntraDomain := None;
     debounce_filterTableList := Some (Some EmptyString, None);
     effects := [] |}.

Definition loginRows : list Row :=
  [ [JBool false; JStr "Alice"; JStr "sql_login"; JStr "master"; JStr "Enabled";
     JLink "completedMigration.svg" "Login found on target"];
    [JBool false; JStr "CORP\bob"; JStr "windows_login"; JStr "sales"; JStr "Disabled";
     JLink "notFound.svg" "Login not found on target"] ].

Definition systemRows : list Row :=
  [ [JStr "sa"; JStr "sql_login"; JStr "master"; JStr "Enabled";
     JLink "notFound.svg" "Login not found on target"] ].

(** A page showing both logins, the first one selected. *)
Definition loadedPage : Page :=
  set__systemLoginTableValues (Some systemRows)
    (set__loginTableValues (Some loginRows)
       (set__loginSelectorTable
          {| data := loginRows; selectedRows := Some [0%nat; 7%nat]; height := 600 |}
          initialPage)).

End Sample.

(** ** The trace of the two queries *)

Definition isFetchEvent (e : Effect) : bool :=
  match e with
  | GetSourceLoginsCalled | GetSourceLoginsSettled _
  | CollectTargetLoginsCalled | CollectTargetLoginsSettled _ => true
  | _ => false
  end.

(** The starts and completions of the two queries in a trace, in order. *)
Definition fetchEvents (tr : list Effect) : list Effect :=
  List.filter isFetchEvent tr.

Section Queries.

Context `{host : Host}.

Lemma getSourceLogins_run (p : Page) :
  exists p' r extra,
    _getSourceLogins p = (Return tt, p') /\
    effects p' =
      (effects p ++ [GetSourceLoginsCalled; GetSourceLoginsSettled r] ++ extra)%list /\
    fetchEvents extra = [].
Proof.
  unfold _getSourceLogins, tryCatch, emit, bind, get, modify, liftO. cbn.
  destruct (getSourceLogins (migrationStateModel p)) as [[[]|e] m']; cbn.
  - eexists _, None, []. split; [reflexivity|]. cbn.
    rewrite <- !app_assoc. split; reflexivity.
  - eexists _, (Some e), [_; _]. split; [reflexivity|]. cbn.
    rewrite <- !app_assoc. split; reflexivity.
Qed.

Lemma getTargetLogins_run (p : Page) :
  exists p' tr,
    _getTargetLogins p = (Return tt, p') /\
    effects p' = (effects p ++ tr)%list /\
    (fetchEvents tr = [] \/
     exists r, fetchEvents tr = [CollectTargetLoginsCalled; CollectTargetLoginsSettled r]).
Proof.
  unfold _getTargetLogins, tryCatch, emit, bind, get, modify, liftO, ret. cbn.
  destruct (isTargetInstanceSet (migrationStateModel p)); cbn.
  - destruct (collectTargetLogins _ _ _ _ _ _) as [targetLogins|e]; cbn.
    + eexists _, [_; _]. split; [reflexivity|]. cbn.
      rewrite <- !app_assoc. split; [reflexivity|]. right. eexists. reflexivity.
    + eexists _, [_; _; _; _]. split; [reflexivity|]. cbn.
      rewrite <- !app_assoc. split; [reflexivity|]. right. eexists. reflexivity.
  - eexists _, []. split; [reflexivity|]. rewrite app_nil_r. split; [reflexivity|].
    now left.
Qed.

Lemma markRefreshDataStart_run (p : Page) :
  exists p', _markRefreshDataStart p = (Return tt, p') /\ effects p' = effects p /\
             migrationStateModel p' = migrationStateModel p.
Proof. eexists. split; [reflexivity|]. split; reflexivity. Qed.

End Queries.

(** ** Building the table rows *)

Section Rows.

Context `{host : Host}.

(** Some login of the target has the name of [login], case ignored. *)
Definition onTarget (targetLogins : list string) (name : JsVal) : Prop :=
  exists t n, t ∈ targetLogins /\ name = JStr n /\ equalCI t n.

Lemma isLoginOnTarget_Return (targetLogins : list string) (name : JsVal) (b : bool) :
  isLoginOnTarget targetLogins name = Return b ->
  (b = true <-> onTarget targetLogins name).
Proof.
  intros H. unfold isLoginOnTarget in H. apply someO_Return in H. rewrite H.
  unfold onTarget. split.
  - intros (t & Ht & Hf). exists t. destruct name as [| |n|]; try discriminate.
    cbn in Hf. injection Hf as Hf.
    apply String.eqb_eq, toLowerCase_eq_equalCI in Hf. eauto.
  - intros (t & n & Ht & -> & Heq). exists t. split; [exact Ht|].
    cbn. f_equal. now apply String.eqb_eq, toLowerCase_eq_equalCI.
Qed.


Lemma mapLoginTableRows_inv targetLogins sel sourceLogins (q q' : Page) rows :
  mapLoginTableRows targetLogins sel sourceLogins q = (Return rows, q') ->
  mapO (loginTableRow targetLogins sel) sourceLogins = Return rows /\
  _loginNames q' = (_loginNames q ++ map loginName sourceLogins)%list.
Proof.
  revert q rows. induction sourceLogins as [|row rest IH]; intros q rows; cbn [mapLoginTableRows].
  - intros [= <- <-]. split; [reflexivity|]. cbn. now rewrite app_nil_r.
  - rewrite run_bind_modify, run_bind_liftO. cbn [mapO].
    destruct (loginTableRow targetLogins sel row) as [r|e]; [|discriminate]. cbn [bindO].
    intros H. apply run_bind_inv in H as (rs & q1 & Hrest & [= <- <-]).
    apply IH in Hrest as [-> Hnames]. split; [reflexivity|].
    rewrite Hnames. cbn. now rewrite <- app_assoc.
Qed.

Lemma loginTableRow_Return targetLogins sel (login : LoginTableInfo) (row : Row) :
  loginTableRow targetLogins sel login = Return row ->
  exists selected b,
    row = [JBool selected; loginName login; loginType login;
           defaultDatabaseName login; status login; targetStatusCell b] /\
    (b = true <-> onTarget targetLogins (loginName login)) /\
    someO (nameMatches (loginName login)) sel = Return selected.
Proof.
  unfold loginTableRow.
  destruct (isLoginOnTarget targetLogins (loginName login)) as [b|e] eqn:Hb;
    [|discriminate]. cbn [bindO].
  destruct (someO _ sel) as [selected|e]; [|discriminate]. cbn [bindO].
  intros [= <-]. exists selected, b. split; [reflexivity|].
  split; [now apply isLoginOnTarget_Return|reflexivity].
Qed.

Lemma systemLoginTableRow_Return targetLogins (login : LoginTableInfo) (row : Row) :
  systemLoginTableRow targetLogins login = Return row ->
  exists b,
    row = [loginName login; loginType login; defaultDatabaseName login;
           status login; targetStatusCell b] /\
    (b = true <-> onTarget targetLogins (loginName login)).
Proof.
  unfold systemLoginTableRow.
  destruct (isLoginOnTarget targetLogins (loginName login)) as [b|e] eqn:Hb;
    [|discriminate]. cbn [bindO].
  intros [= <-]. exists b. split; [reflexivity|]. now apply isLoginOnTarget_Return.
Qed.

(** What a normal run of [_loadLoginList] stores: the rows built from the
    logins of the model it leaves, and a pending call of the filter. *)
Lemma loadLoginList_tables (runQuery : bool) (p p' : Page) :
  _loadLoginList runQuery p = (Return tt, p') ->
  exists rows systemRows,
    _loginTableValues p' = Some rows /\
    _systemLoginTableValues p' = Some systemRows /\
    mapO (loginTableRow (loginsOnTarget (model p'))
            (default [] (loginsForMigration (model p))))
         (loginsOnSource (model p')) = Return rows /\
    mapO (systemLoginTableRow (loginsOnTarget (model p')))
         (systemLoginsOnSource (model p')) = Return systemRows /\
    _loginNames p' = map loginName (loginsOnSource (model p')).
Proof.
  unfold _loadLoginList. rewrite run_bind_get. cbv beta zeta. intros H.
  apply run_bind_inv in H as ([] & p1 & _ & H).
  apply run_bind_inv in H as ([] & p2 & _ & H).
  rewrite run_bind_get, run_bind_modify in H. cbv beta in H.
  apply run_bind_inv in H as (rows & q & Hmap & H).
  pose proof (preserves_mapLoginTableRows model
                (loginsOnTarget (model p2))
                (default [] (loginsForMigration (model p)))
                (loginsOnSource (model p2))
                (fun _ _ => eq_refl) (set__loginNames [] p2)) as Hm.
  rewrite Hmap in Hm. cbn [snd] in Hm.
  change (model (set__loginNames [] p2)) with (model p2) in Hm.
  apply mapLoginTableRows_inv in Hmap as [Hrows Hnames].
  unfold call_filterTableList in H.
  rewrite !run_bind_modify, run_bind_liftO in H. cbv beta in H.
  destruct (mapO (systemLoginTableRow _) _) as [systemRows|e] eqn:Hsys; [|discriminate].
  rewrite run_bind_modify in H. cbv beta in H.
  assert (model p' = model q /\
          _loginTableValues p' = Some rows /\
          _systemLoginTableValues p' = Some systemRows /\
          _loginNames p' = _loginNames q) as (Hmodel & Ht & Hs & Hn).
  { match type of H with
    | ?tail ?q3 = _ =>
        repeat split;
        match goal with
        | |- ?f p' = _ =>
            transitivity (f q3); [|reflexivity];
            change p' with (snd (Return tt, p')); rewrite <- H;
            apply (preserves_bind f); [|intros ?]; frame
        end
    end. }
  exists rows, systemRows.
  rewrite Hmodel, Hm. repeat split; try assumption.
  rewrite Hn, Hnames. reflexivity.
Qed.

End Rows.

(** ** The filters *)

Section Filters.

Context `{host : Host}.








Lemma hasLength_empty : hasLength (Some EmptyString) = false.
Proof. reflexivity. Qed.






End Filters.

(** ** Re-selecting rows by name *)

Section Reselect.

Context `{host : Host}.





(** [_filterTableList] step by step. *)
Lemma filterTableList_run (value : option string)
    (selectedList : option (list LoginTableInfo)) (p : Page) :
  _filterTableList value selectedList p =
  let p0 := set__filterTableValue value p in
  match match selectedList with
        | Some l => Return l
        | None => selectedLogins p
        end with
  | Throw e => (Throw e, p0)
  | Return selection =>
      match match _loginTableValues p, value with
            | Some rows, Some v =>
                if hasLength value
                then filterO (loginRowMatches (Js.toLowerCase v)) rows
                else Return rows
            | Some rows, None => Return rows
            | None, _ => Return []
            end with
      | Throw e => (Throw e, p0)
      | Return tableRows =>
          match selectRows selection tableRows 0 with
          | Throw e => (Throw e, p0)
          | Return chosen =>
              updateValuesOnSelection
                (upd_loginSelectorTable (set_selectedRows (Some chosen))
                   (upd_loginSelectorTable (set_data tableRows) p0))
          end
      end
  end.
Proof.
  unfold _filterTableList. rewrite run_bind_modify, run_bind_get, run_bind_liftO.
  cbv beta zeta.
  change (selectedLogins (set__filterTableValue value p)) with (selectedLogins p).
  change (_loginTableValues (set__filterTableValue value p)) with (_loginTableValues p).
  destruct (match selectedList with Some l => Return l | None => selectedLogins p end)
    as [selection|e]; [|reflexivity].
  rewrite run_bind_liftO.
  destruct (match _loginTableValues p with Some _ => _ | None => _ end)
    as [tableRows|e]; [|reflexivity].
  rewrite run_bind_liftO.
  destruct (selectRows selection tableRows 0) as [chosen|e]; [|reflexivity].
  rewrite !run_bind_modify. reflexivity.
Qed.

Lemma afterSelection_table (sel : list LoginTableInfo) (p : Page) :
  data (_loginSelectorTable (afterSelection sel p)) = data (_loginSelectorTable p) /\
  selectedRows (_loginSelectorTable (afterSelection sel p))
    = selectedRows (_loginSelectorTable p).
Proof.
  unfold afterSelection. cbv zeta. destruct (_isCurrentPage _); split; reflexivity.
Qed.

End Reselect.

(** ** Further facts on traversals *)

Lemma mapO_Throw {A B} (f : A -> Outcome B) (l : list A) (e : JsError) :
  mapO f l = Throw e -> exists x, x ∈ l /\ f x = Throw e.
Proof.
  induction l as [|x l IH]; simpl; [discriminate|].
  destruct (f x) as [y|e'] eqn:E; simpl.
  - destruct (mapO f l) as [ys|e'']; simpl; [discriminate|].
    intros [= ->]. destruct (IH eq_refl) as (x' & Hx' & Hf).
    exists x'. split; [now right|exact Hf].
  - intros [= ->]. exists x. split; [left|exact E].
Qed.

Lemma filterO_sublist {A} (f : A -> Outcome bool) (l r : list A) :
  filterO f l = Return r -> sublist r l.
Proof.
  revert r; induction l as [|x l IH]; intros r; simpl.
  - intros [= <-]. constructor.
  - destruct (f x) as [b|e]; simpl; [|discriminate].
    destruct (filterO f l) as [r'|e]; simpl; [|discriminate].
    intros [= <-]. destruct b; [apply sublist_skip | apply sublist_cons]; now apply IH.
Qed.

Lemma elem_of_fold_names (sel : list LoginTableInfo) (s0 : gset JsVal) (x : JsVal) :
  x ∈ fold_left (fun s login => {[ loginName login ]} ∪ s) sel s0 <->
  x ∈ s0 \/ exists login, login ∈ sel /\ loginName login = x.
Proof.
  revert s0; induction sel as [|l sel IH]; intros s0; cbn [fold_left].
  - split; [auto|]. intros [H|(login & H & _)]; [exact H|inversion H].
  - rewrite IH, elem_of_union, elem_of_singleton. split.
    + intros [[->|H]|(login & Hin & Hn)]; eauto.
      * right. exists l. split; [left|reflexivity].
      * right. exists login. split; [now right|exact Hn].
    + intros [H|(login & Hin & Hn)]; [auto|].
      apply elem_of_cons in Hin as [->|Hin]; [auto|].
      right. eauto.
Qed.

(** ** The end of [_loadLoginList] and the outcome of the queries *)

Section LoadEnd.

Context `{host : Host}.

Lemma afterNextButton_frame (q : Page) :
  model (afterNextButton q) = model q /\
  _refreshResultsInfoBox (afterNextButton q) = _refreshResultsInfoBox q /\
  _refreshLoading (afterNextButton q) = _refreshLoading q /\
  _isCurrentPage (afterNextButton q) = _isCurrentPage q /\
  message (wizard (afterNextButton q)) = message (wizard q).
Proof. unfold afterNextButton. destruct (_isCurrentPage q) eqn:E; auto. Qed.

(** A normal run of [_loadLoginList] ends with [_markRefreshDataComplete]
    on the numbers of source and target logins of the model. *)
Lemma loadLoginList_end (runQuery : bool) (p p' : Page) :
  _loadLoginList runQuery p = (Return tt, p') ->
  exists q,
    p' = afterNextButton q /\
    _refreshResultsInfoBox q =
      {| style := StyleSuccess;
         text := LOGIN_MIGRATION_REFRESH_LOGIN_DATA_SUCCESSFUL
                   (length (loginsOnSource (model q)))
                   (length (loginsOnTarget (model q)));
         display := true |} /\
    _refreshLoading q = false.
Proof.
  unfold _loadLoginList. rewrite run_bind_get. cbv beta zeta. intros H.
  apply run_bind_inv in H as ([] & p1 & _ & H).
  apply run_bind_inv in H as ([] & p2 & _ & H).
  rewrite run_bind_get, run_bind_modify in H. cbv beta in H.
  apply run_bind_inv in H as (rows & q & Hmap & H).
  pose proof (preserves_mapLoginTableRows model
                (loginsOnTarget (model p2))
                (default [] (loginsForMigration (model p)))
                (loginsOnSource (model p2))
                (fun _ _ => eq_refl) (set__loginNames [] p2)) as Hm.
  rewrite Hmap in Hm. cbn [snd] in Hm.
  change (model (set__loginNames [] p2)) with (model p2) in Hm.
  unfold call_filterTableList in H.
  rewrite !run_bind_modify, run_bind_liftO in H. cbv beta in H.
  destruct (mapO (systemLoginTableRow _) _) as [systemRows|e]; [|discriminate].
  rewrite run_bind_modify in H. cbv beta in H.
  apply run_bind_inv in H as ([] & q4 & Hfilter & H).
  assert (model q4 = model p2) as Hq4.
  { rewrite <- Hm.
    match type of Hfilter with
    | _ ?q3 = _ => transitivity (model q3); [|reflexivity]
    end.
    change q4 with (snd (Return tt, q4)). rewrite <- Hfilter.
    apply (preserves_bind model); [|intros ?]; frame. }
  unfold _markRefreshDataComplete in H.
  rewrite !run_bind_modify, updateNextButton_run in H. injection H as <-.
  eexists. split; [reflexivity|]. rewrite <- Hq4. split; reflexivity.
Qed.

(** The page a failed source query leaves. *)
Lemma getSourceLogins_failure (p : Page) (e : JsError) :
  fst (getSourceLogins (migrationStateModel p)) = Throw e ->
  exists p',
    _getSourceLogins p = (Return tt, p') /\
    message (wizard p') =
      Some {| msg_text := LOGIN_MIGRATIONS_GET_LOGINS_ERROR_TITLE "source";
              msg_level := LevelError;
              msg_description :=
                Some (LOGIN_MIGRATIONS_GET_LOGINS_ERROR (error_message e)) |}.
Proof.
  intros H. unfold _getSourceLogins, tryCatch, emit, bind, get, modify, liftO.
  cbn. rewrite H. cbn. eexists. split; reflexivity.
Qed.

(** [_getTargetLogins] either leaves the wizard message or replaces it by
    the message of a failed target query. *)
Lemma getTargetLogins_message (p : Page) :
  exists p',
    _getTargetLogins p = (Return tt, p') /\
    (message (wizard p') = message (wizard p) \/
     exists e,
       message (wizard p') =
         Some {| msg_text := LOGIN_MIGRATIONS_GET_LOGINS_ERROR_TITLE "target";
                 msg_level := LevelError;
                 msg_description :=
                   Some (LOGIN_MIGRATIONS_GET_LOGINS_ERROR (error_message e)) |}).
Proof.
  unfold _getTargetLogins, tryCatch, emit, bind, get, modify, liftO, ret. cbn.
  destruct (isTargetInstanceSet (migrationStateModel p)); cbn.
  - destruct (collectTargetLogins _ _ _ _ _ _) as [targetLogins|e]; cbn.
    + eexists. split; [reflexivity|]. now left.
    + eexists. split; [reflexivity|]. right. exists e. reflexivity.
  - eexists. split; [reflexivity|]. now left.
Qed.

End LoadEnd.

(** ** Where a sequence throws *)

Lemma run_bind_Throw_inv {A B} (c : M A) (k : A -> M B) (p q : Page) (e : JsError) :
  bind c k p = (Throw e, q) ->
  c p = (Throw e, q) \/ exists a p', c p = (Return a, p') /\ k a p' = (Throw e, q).
Proof.
  unfold bind. destruct (c p) as [[a|e'] p']; [eauto|]. intros [= -> ->]. now left.
Qed.

(** ** The refresh indicators *)

Section Indicators.

Context `{host : Host}.

(** What the page shows of a refresh: whether the next button is enabled
    and the style of the info box. *)
Definition refreshShown (p : Page) : bool * InfoBoxStyle :=
  (nextButton_enabled (wizard p), style (_refreshResultsInfoBox p)).

Lemma markRefreshDataStart_shown (p : Page) :
  exists q, _markRefreshDataStart p = (Return tt, q) /\
            refreshShown q = (false, StyleInformation).
Proof. eexists. split; reflexivity. Qed.

Lemma getTargetLogins_shown (q : Page) :
  exists p2,
    _getTargetLogins q = (Return tt, p2) /\
    (refreshShown p2 = refreshShown q \/
     refreshShown p2 = (nextButton_enabled (wizard q), StyleError)).
Proof.
  unfold _getTargetLogins, tryCatch, emit, bind, get, modify, liftO, ret. cbn.
  destruct (isTargetInstanceSet (migrationStateModel q)); cbn.
  - destruct (collectTargetLogins _ _ _ _ _ _) as [targetLogins|e]; cbn;
      eexists; (split; [reflexivity|]); [now left | now right].
  - eexists. split; [reflexivity|]. now left.
Qed.

End Indicators.

(** ** Invariants of the page *)

Section Stable.

Context `{host : Host}.

(** [c] keeps the invariant [I], whether it returns or throws. *)
Definition stable {A} (I : Page -> Prop) (c : M A) : Prop :=
  forall p, I p -> I (snd (c p)).

Lemma stable_ret {A} (I : Page -> Prop) (a : A) : stable I (ret a).
Proof. intros p H. exact H. Qed.

Lemma stable_get (I : Page -> Prop) : stable I get.
Proof. intros p H. exact H. Qed.

Lemma stable_liftO {A} (I : Page -> Prop) (o : Outcome A) : stable I (liftO o).
Proof. intros p H. exact H. Qed.

Lemma stable_modify (I : Page -> Prop) (g : Page -> Page) :
  (forall p, I p -> I (g p)) -> stable I (modify g).
Proof. intros H p Hp. now apply H. Qed.

Lemma stable_bind {A B} (I : Page -> Prop) (c : M A) (k : A -> M B) :
  stable I c -> (forall a, stable I (k a)) -> stable I (bind c k).
Proof.
  intros Hc Hk p Hp. unfold bind. specialize (Hc p Hp).
  destruct (c p) as [[a|e] p']; cbn [snd] in *; [|exact Hc].
  now apply Hk.
Qed.

Lemma stable_tryCatch {A} (I : Page -> Prop) (c : M A) (h : JsError -> M A) :
  stable I c -> (forall e, stable I (h e)) -> stable I (tryCatch c h).
Proof.
  intros Hc Hh p Hp. unfold tryCatch. specialize (Hc p Hp).
  destruct (c p) as [[a|e] p']; cbn [snd] in *; [exact Hc|].
  now apply Hh.
Qed.

Lemma stable_mapLoginTableRows (I : Page -> Prop) targetLogins sel sourceLogins :
  (forall v p, I p -> I (set__loginNames v p)) ->
  stable I (mapLoginTableRows targetLogins sel sourceLogins).
Proof.
  intros H. induction sourceLogins as [|row rest IH]; cbn [mapLoginTableRows].
  - apply stable_ret.
  - apply stable_bind; [apply stable_modify; intros; now apply H|intros _].
    apply stable_bind; [apply stable_liftO|intros r].
    apply stable_bind; [exact IH|intros rs]. apply stable_ret.
Qed.

(** The list of logins for migration is assigned. *)
Definition assigned (p : Page) : Prop := loginsForMigration (model p) <> None.

Lemma getSourceLogins_assigned :
  (forall m, loginsForMigration (_loginMigrationModel m) <> None ->
             loginsForMigration (_loginMigrationModel (snd (getSourceLogins m))) <> None) ->
  stable assigned _getSourceLogins.
Proof.
  intros Hhost p Hp. unfold assigned, model in *.
  specialize (Hhost (migrationStateModel p) Hp).
  unfold _getSourceLogins, tryCatch, emit, bind, get, modify, liftO. cbn.
  destruct (getSourceLogins (migrationStateModel p)) as [[[]|e] m']; exact Hhost.
Qed.

End Stable.

(** Decomposes a goal [stable assigned c] along the structure of [c]. *)
Ltac stable_step :=
  lazymatch goal with
  | |- stable _ (ret _) => apply stable_ret
  | |- stable _ get => apply stable_get
  | |- stable _ (liftO _) => apply stable_liftO
  | |- stable _ (modify _) =>
      apply stable_modify; unfold assigned; intros ? ?;
      first [assumption | cbn; discriminate]
  | |- stable _ (mapLoginTableRows _ _ _) =>
      apply stable_mapLoginTableRows; unfold assigned; intros; assumption
  | |- stable _ _getSourceLogins => apply getSourceLogins_assigned; assumption
  | |- stable _ (bind _ _) => apply stable_bind; [|intros ?]
  | |- stable _ (tryCatch _ _) => apply stable_tryCatch; [|intros ?]
  | |- stable _ (if ?b then _ else _) => destruct b
  | |- stable _ (match ?x with _ => _ end) => destruct x
  | |- stable _ (let _ := _ in _) => cbv zeta
  end.

Ltac stable_tac :=
  unfold handle, onPageEnter, onPageLeave, handleStateChange,
    updateValidationResultUI, _validateLoginPreMigration,
    _logLoginMigrationPreValidationSuccessful, _logLoginMigrationPreValidationFailed,
    _loadLoginList, _markRefreshDataComplete, _markRefreshDataStart,
    _getTargetLogins, _filterSystemTableList,
    fire_filterTableList, call_filterTableList, _filterTableList,
    updateValuesOnSelection, refreshAADInputBox, resetNextButton,
    updateNextButton, emit;
  repeat stable_step.

(** * The claims *)

(** C10: [onPageEnter] shows the validate button and marks the page current,
    [onPageLeave] hides the button and marks the page not current, whether
    or not the hook throws afterwards; no other handler touches either, so
    along any sequence of events the button is hidden exactly when the page
    is not current. *)
Theorem validate_button_tracks_current_page `{host : Host} :
  (forall p, validateButton_hidden (wizard (step PageEnter p)) = false /\
             _isCurrentPage (step PageEnter p) = true) /\
  (forall p, validateButton_hidden (wizard (step PageLeave p)) = true /\
             _isCurrentPage (step PageLeave p) = false) /\
  (forall evs p,
     validateButton_hidden (wizard p) = negb (_isCurrentPage p) ->
     validateButton_hidden (wizard (run evs p)) = negb (_isCurrentPage (run evs p))).
Proof.
  assert (Henter : forall p, buttonAndCurrent (step PageEnter p) = (false, true)).
  { intros p. unfold step, handle, onPageEnter, emit.
    repeat (rewrite run_bind_modify; cbv beta).
    match goal with
    | |- buttonAndCurrent (snd (_ ?q)) = _ => transitivity (buttonAndCurrent q)
    end; [|reflexivity].
    apply preserves_bind; [|intros ?]; frame. }
  assert (Hleave : forall p, buttonAndCurrent (step PageLeave p) = (true, false)).
  { intros p. reflexivity. }
  split; [|split].
  - intros p. apply buttonAndCurrent_inv, Henter.
  - intros p. apply buttonAndCurrent_inv, Hleave.
  - induction evs as [|ev evs IH]; intros p Hp; [exact Hp|].
    cbn [run fold_left]. apply IH.
    assert (buttonAndCurrent (step ev p) = buttonAndCurrent p
            \/ buttonAndCurrent (step ev p) = (false, true)
            \/ buttonAndCurrent (step ev p) = (true, false)) as H.
    { destruct ev;
        try (left; apply handle_buttonAndCurrent; discriminate);
        [right; left; apply Henter | right; right; apply Hleave]. }
    destruct H as [H|[H|H]]; apply buttonAndCurrent_inv in H as [H1 H2];
      rewrite H1, H2; [exact Hp | reflexivity | reflexivity].
Qed.

Lemma validate_button_tracks_current_page_witness :
  let p := @run Sample.working [PageEnter; RowSelected; PageLeave; DebounceTimer]
             Sample.initialPage in
  validateButton_hidden (wizard p) = negb (_isCurrentPage p).
Proof.
  apply (proj2 (proj2 (@validate_button_tracks_current_page Sample.working))).
  reflexivity.
Defined.



(** C2 (the code differs): on a displayed row whose status cell holds the
    string ['Enabled'], as [_loadLoginList] populates it, [selectedLogins]
    returns a record whose status is [undefined]: it reads [.title] of the
    status cell.  The out-of-range index 7 is dropped. *)
Theorem selectedLogins_loses_status :
  JsOps.cell (default [] (data (_loginSelectorTable Sample.loadedPage) !! 0%nat)) 4
    = JStr "Enabled" /\
  selectedLogins Sample.loadedPage =
    Return [ {| loginName := JStr "Alice";
                loginType := JStr "sql_login";
                defaultDatabaseName := JStr "master";
                status := JUndefined |} ].
Proof. split; reflexivity. Qed.

(** C7: with the list of logins for migration assigned, as it is from the
    first run of the filter body on (line 783), the click handler of the
    validate button returns, and it opens the validation dialog exactly
    when the list is non-empty: on a non-empty list it opens the dialog
    with the stored results and changes nothing else; on the empty list it
    sets the error message, opens no dialog and changes nothing else. *)
Theorem validation_dialog_needs_a_login (p : Page) (l : list LoginTableInfo) :
  loginsForMigration (model p) = Some l ->
  exists p',
    _validateLoginPreMigration p = (Return tt, p') /\
    ((exists title results,
        effects p' = (effects p ++ [OpenDialog title results])%list) <-> l <> []) /\
    (l <> [] ->
     p' = set_effects
            (effects p ++
             [OpenDialog VALIDATION_DIALOG_TITLE
                (_validateLoginMigration (migrationStateModel p))])%list p) /\
    (l = [] ->
     p' = upd_wizard (set_message (Some (errorMessage SELECT_LOGIN_TO_CONTINUE))) p /\
     effects p' = effects p).
Proof.
  intros H. unfold _validateLoginPreMigration. rewrite run_bind_get. cbv beta.
  rewrite H. destruct l as [|login l]; cbn [length Nat.leb].
  - eexists. split; [reflexivity|]. split; [|split; [congruence|auto]].
    split; [|congruence]. intros (title & results & Heffects). cbn in Heffects.
    apply (f_equal (@length Effect)) in Heffects.
    rewrite length_app in Heffects. cbn in Heffects. lia.
  - eexists. split; [reflexivity|]. split; [|split; [reflexivity|discriminate]].
    split; [discriminate|]. intros _. eexists _, _. reflexivity.
Qed.

Lemma validation_dialog_needs_a_login_witness :
  let p := @run Sample.working [DebounceTimer; PageEnter; DebounceTimer]
             Sample.initialPage in
  exists p',
    _validateLoginPreMigration p = (Return tt, p') /\
    p' = upd_wizard (set_message (Some (errorMessage SELECT_LOGIN_TO_CONTINUE))) p /\
    effects p' = effects p.
Proof.
  intros p.
  assert (loginsForMigration (model p) = Some []) as Hlist
    by (vm_compute; reflexivity).
  destruct (validation_dialog_needs_a_login p [] Hlist)
    as (p' & Hrun & _ & _ & Hempty).
  exists p'. split; [exact Hrun | exact (Hempty eq_refl)].
Defined.

(** C4: [onPageEnter] registers [validatorOfPageEnter] with the wizard.
    That validator always permits a move to an earlier page.  It permits a
    move that is not backward only when at least one login is selected, the
    target is validated, every selected login name is in the set of
    validated names and, when windows logins are selected, the AAD domain
    name is non-empty and equal to the domain validated last; and under
    these conditions it does permit the move. *)
Theorem forward_navigation_needs_validation `{host : Host}
    (info : PageChangeInfo) (p : Page) :
  let permitted :=
    exists sel,
      selectedLogins p = Return sel /\ sel <> [] /\
      isLoginMigrationTargetValidated (migrationStateModel p) = true /\
      Forall (fun login => loginName login ∈ _successfullyValidatedLogins p) sel /\
      (selectedWindowsLogins (model p) = true ->
       exists domain,
         _aadDomainName (migrationStateModel p) = Some domain /\
         domain <> EmptyString /\
         _successfullyValidatedEntraDomain p = Some domain) in
  navigationValidator (wizard (step PageEnter p)) = Some ValidatorOfPageEnter /\
  (newPage info < lastPage info ->
   exists p', validatorOfPageEnter info p = (Return true, p')) /\
  (lastPage info <= newPage info ->
   (exists p', validatorOfPageEnter info p = (Return true, p')) <-> permitted).
Proof.
  intros permitted. split; [|split].
  - unfold step, handle, onPageEnter, emit.
    repeat (rewrite run_bind_modify; cbv beta).
    rewrite (run_bind_Return _ _ _ _ _ (updateNextButton_run _)).
    rewrite run_bind_modify. cbv beta.
    match goal with
    | |- navigationValidator (wizard (snd (_ ?q))) = _ =>
        transitivity (navigationValidator (wizard q))
    end; [|reflexivity].
    apply (preserves_bind (fun q => navigationValidator (wizard q)));
      [|intros ?]; frame.
  - intros Hback. unfold validatorOfPageEnter. rewrite run_bind_modify.
    apply Z.ltb_lt in Hback. rewrite Hback. eexists. reflexivity.
  - intros Hfwd. unfold validatorOfPageEnter. rewrite run_bind_modify.
    assert ((newPage info <? lastPage info) = false) as -> by (apply Z.ltb_ge; lia).
    rewrite run_bind_get, run_bind_liftO. cbv beta.
    unfold _isAllSelectedLoginsValidated, permitted.
    set (p1 := upd_wizard _ p).
    change (selectedLogins p1) with (selectedLogins p).
    change (migrationStateModel p1) with (migrationStateModel p).
    change (model p1) with (model p).
    change (_successfullyValidatedLogins p1) with (_successfullyValidatedLogins p).
    change (_successfullyValidatedEntraDomain p1)
      with (_successfullyValidatedEntraDomain p).
    destruct (selectedLogins p) as [sel|e]; cycle 1.
    { split; [intros [p' [=]] | intros (sel & [=] & _)]. }
    destruct sel as [|login sel]; cbn [length Nat.eqb orb].
    { rewrite run_bind_modify. split; [intros [p' [=]] | intros (sel & [= <-] & H & _)].
      congruence. }
    destruct (isLoginMigrationTargetValidated (migrationStateModel p)); cbn [negb];
      cycle 1.
    { rewrite run_bind_modify. split; [intros [p' [=]] | intros (? & _ & _ & [=] & _)]. }
    assert (Hall : forallb (fun l => bool_decide (loginName l ∈ _successfullyValidatedLogins p))
                     (login :: sel) = true <->
                   Forall (fun l => loginName l ∈ _successfullyValidatedLogins p)
                     (login :: sel)).
    { rewrite forallb_forall, Forall_forall. split; intros H x Hx.
      - apply list_elem_of_In in Hx. apply H in Hx. now apply bool_decide_eq_true in Hx.
      - apply bool_decide_eq_true. apply H. now apply list_elem_of_In. }
    destruct (selectedWindowsLogins (model p)); cbn [andb].
    + destruct (_aadDomainName (migrationStateModel p)) as [domain|] eqn:Hd;
        cbn [truthy negb]; cycle 1.
      { rewrite run_bind_modify.
        split; [intros [p' [=]] | intros (? & _ & _ & _ & _ & H)].
        destruct (H eq_refl) as (? & [=] & _). }
      destruct (String.eqb_spec domain EmptyString) as [->|Hne]; cbn [negb].
      { rewrite run_bind_modify.
        split; [intros [p' [=]] | intros (? & _ & _ & _ & _ & H)].
        destruct (H eq_refl) as (? & [= <-] & ? & _). congruence. }
      destruct (bool_decide_reflect
                  (_successfullyValidatedEntraDomain p = Some domain)) as [Hv|Hv];
        cbn [negb]; cycle 1.
      { rewrite run_bind_modify.
        split; [intros [p' [=]] | intros (? & _ & _ & _ & _ & H)].
        destruct (H eq_refl) as (? & [= <-] & _ & ?). congruence. }
      rewrite run_bind_liftO. cbn [bindO].
      destruct (forallb _ (login :: sel)) eqn:Hf; cbn [negb].
      * split; [intros _ | intros _; eexists; reflexivity].
        exists (login :: sel). repeat split; try congruence; [now apply Hall|].
        intros _. exists domain. now repeat split.
      * rewrite run_bind_modify.
        split; [intros [p' [=]] | intros (? & [= <-] & _ & _ & H & _)].
        apply Hall in H. congruence.
    + rewrite run_bind_liftO. cbn [bindO].
      destruct (forallb _ (login :: sel)) eqn:Hf; cbn [negb].
      * split; [intros _ | intros _; eexists; reflexivity].
        exists (login :: sel). repeat split; try congruence. now apply Hall.
      * rewrite run_bind_modify.
        split; [intros [p' [=]] | intros (? & [= <-] & _ & _ & H & _)].
        apply Hall in H. congruence.
Qed.

Lemma forward_navigation_needs_validation_witness :
  let p :=
    set__successfullyValidatedLogins {[ JStr "Alice" ]} Sample.loadedPage in
  (exists p', @validatorOfPageEnter Sample.working
                {| newPage := 1; lastPage := 2 |} p = (Return true, p')) /\
  (exists p', @validatorOfPageEnter Sample.working
                {| newPage := 3; lastPage := 2 |} p = (Return true, p')).
Proof.
  intros p. split.
  - apply (proj1 (proj2 (@forward_navigation_needs_validation Sample.working
                           {| newPage := 1; lastPage := 2 |} p))).
    simpl. lia.
  - apply (proj2 (proj2 (@forward_navigation_needs_validation Sample.working
                           {| newPage := 3; lastPage := 2 |} p))).
    + simpl. lia.
    + eexists. split; [reflexivity|].
      split; [discriminate|]. split; [reflexivity|].
      split; [|discriminate].
      repeat constructor. simpl. apply elem_of_singleton. reflexivity.
Defined.

(** C3: when [getSourceLogins] throws, [_getSourceLogins] returns normally;
    it has called the query once, set the refresh info box to the error
    style with the source-failure text, set a wizard message whose
    description carries the message of the error, logged the error and sent
    one telemetry error event, and nothing else.  The same holds of
    [_getTargetLogins] when the target instance is set and
    [collectTargetLogins] throws. *)
Theorem query_failure_is_caught_and_reported `{host : Host} (p : Page) (e : JsError) :
  (fst (getSourceLogins (migrationStateModel p)) = Throw e ->
   exists p',
     _getSourceLogins p = (Return tt, p') /\
     style (_refreshResultsInfoBox p') = StyleError /\
     text (_refreshResultsInfoBox p') =
       LOGIN_MIGRATION_REFRESH_SOURCE_LOGIN_DATA_FAILED /\
     message (wizard p') =
       Some {| msg_text := LOGIN_MIGRATIONS_GET_LOGINS_ERROR_TITLE "source";
               msg_level := LevelError;
               msg_description :=
                 Some (LOGIN_MIGRATIONS_GET_LOGINS_ERROR (error_message e)) |} /\
     effects p' =
       (effects p ++
       [GetSourceLoginsCalled;
        GetSourceLoginsSettled (Some e);
        LogError LoginMigrationWizard CollectingSourceLoginsFailed e;
        SendSqlMigrationActionEvent LoginMigrationSelectorPage LoginMigrationError
          (ErrorMessage CollectingSourceLoginsFailed)])%list) /\
  (let stateMachine := migrationStateModel p in
   isTargetInstanceSet stateMachine = true ->
   collectTargetLogins (targetServerName stateMachine)
     (_targetServerInstance stateMachine) (_targetUserName stateMachine)
     (_targetPassword stateMachine) (_targetPort stateMachine)
     (isWindowsAuthMigrationSupported stateMachine) = Throw e ->
   exists p',
     _getTargetLogins p = (Return tt, p') /\
     style (_refreshResultsInfoBox p') = StyleError /\
     text (_refreshResultsInfoBox p') =
       LOGIN_MIGRATION_REFRESH_TARGET_LOGIN_DATA_FAILED /\
     message (wizard p') =
       Some {| msg_text := LOGIN_MIGRATIONS_GET_LOGINS_ERROR_TITLE "target";
               msg_level := LevelError;
               msg_description :=
                 Some (LOGIN_MIGRATIONS_GET_LOGINS_ERROR (error_message e)) |} /\
     effects p' =
       (effects p ++
       [CollectTargetLoginsCalled;
        CollectTargetLoginsSettled (Some e);
        LogError LoginMigrationWizard CollectingTargetLoginsFailed e;
        SendSqlMigrationActionEvent LoginMigrationSelectorPage LoginMigrationError
          (ErrorMessage CollectingTargetLoginsFailed)])%list).
Proof.
  split.
  - intros H. unfold _getSourceLogins, tryCatch, emit, bind, get, modify, liftO.
    cbn. rewrite H. cbn. eexists. split; [reflexivity|]. cbn.
    repeat split. rewrite <- !app_assoc. reflexivity.
  - intros stateMachine Hset H.
    unfold _getTargetLogins, tryCatch, emit, bind, get, modify, liftO.
    cbn. fold stateMachine. rewrite Hset. cbn. fold stateMachine. rewrite H. cbn.
    eexists. split; [reflexivity|]. cbn.
    repeat split. rewrite <- !app_assoc. reflexivity.
Qed.

Lemma query_failure_is_caught_and_reported_witness :
  (exists p', @_getSourceLogins Sample.failing Sample.initialPage = (Return tt, p') /\
     style (_refreshResultsInfoBox p') = StyleError) /\
  (exists p', @_getTargetLogins Sample.failing Sample.initialPage = (Return tt, p') /\
     style (_refreshResultsInfoBox p') = StyleError).
Proof.
  destruct (@query_failure_is_caught_and_reported Sample.failing Sample.initialPage
              (Error "connection lost")) as [Hsource _].
  destruct (@query_failure_is_caught_and_reported Sample.failing Sample.initialPage
              (Error "login failed")) as [_ Htarget].
  split.
  - destruct Hsource as (p' & H1 & H2 & _); [reflexivity|eauto].
  - destruct Htarget as (p' & H1 & H2 & _); [reflexivity|reflexivity|eauto].
Defined.

(** C6: [_loadLoginList] starts the source query at most once and the
    target query at most once; the source query runs exactly when asked to
    or when the source logins were not collected before, and it has settled
    before the target query is started.  Whatever the queries do, the trace
    holds no further start of either: there is no retry. *)
Theorem fetches_are_sequential `{host : Host} (runQuery : bool) (p : Page) :
  exists tr src tgt,
    effects (snd (_loadLoginList runQuery p)) = (effects p ++ tr)%list /\
    fetchEvents tr = (src ++ tgt)%list /\
    (if runQuery || negb (collectedSourceLogins (model p))
     then exists r, src = [GetSourceLoginsCalled; GetSourceLoginsSettled r]
     else src = []) /\
    (tgt = [] \/
     exists r, tgt = [CollectTargetLoginsCalled; CollectTargetLoginsSettled r]).
Proof.
  unfold _loadLoginList. rewrite run_bind_get. cbv beta zeta.
  (* the source query *)
  assert (exists p1 tr1,
            (q <- get ;;
             if runQuery || negb (collectedSourceLogins (model q))
             then _markRefreshDataStart ;; _getSourceLogins
             else ret tt) p = (Return tt, p1) /\
            effects p1 = (effects p ++ tr1)%list /\
            (if runQuery || negb (collectedSourceLogins (model p))
             then exists r, fetchEvents tr1 =
                              [GetSourceLoginsCalled; GetSourceLoginsSettled r]
             else fetchEvents tr1 = [])) as (p1 & tr1 & Hrun1 & He1 & Hf1).
  { rewrite run_bind_get.
    destruct (runQuery || negb (collectedSourceLogins (model p))).
    - destruct (markRefreshDataStart_run p) as (q & Hq & Hqe & _).
      rewrite (run_bind_Return _ _ _ _ _ Hq).
      destruct (getSourceLogins_run q) as (p1 & r & extra & H1 & H2 & H3).
      exists p1, ([GetSourceLoginsCalled; GetSourceLoginsSettled r] ++ extra)%list.
      split; [exact H1|]. split; [now rewrite H2, Hqe|].
      exists r. unfold fetchEvents in *. cbn. now rewrite H3.
    - exists p, []. split; [reflexivity|]. now rewrite app_nil_r. }
  rewrite (run_bind_Return _ _ _ _ _ Hrun1).
  (* the target query *)
  assert (exists p2 tr2,
            (q <- get ;;
             if runQuery || negb (collectedTargetLogins (model q))
             then _markRefreshDataStart ;; _getTargetLogins
             else ret tt) p1 = (Return tt, p2) /\
            effects p2 = (effects p1 ++ tr2)%list /\
            (fetchEvents tr2 = [] \/
             exists r, fetchEvents tr2 =
                         [CollectTargetLoginsCalled; CollectTargetLoginsSettled r]))
    as (p2 & tr2 & Hrun2 & He2 & Hf2).
  { rewrite run_bind_get.
    destruct (runQuery || negb (collectedTargetLogins (model p1))).
    - destruct (markRefreshDataStart_run p1) as (q & Hq & Hqe & _).
      rewrite (run_bind_Return _ _ _ _ _ Hq).
      destruct (getTargetLogins_run q) as (p2 & tr2 & H1 & H2 & H3).
      exists p2, tr2. split; [exact H1|]. split; [now rewrite H2, Hqe|exact H3].
    - exists p1, []. split; [reflexivity|]. split; [now rewrite app_nil_r|now left]. }
  rewrite (run_bind_Return _ _ _ _ _ Hrun2).
  (* building and filtering the tables calls no collaborator *)
  match goal with
  | |- context [effects (snd (?rest p2))] =>
      assert (effects (snd (rest p2)) = effects p2) as ->
  end.
  { apply (preserves_bind effects); [|intros ?]; frame. }
  exists (tr1 ++ tr2)%list, (fetchEvents tr1), (fetchEvents tr2).
  split; [now rewrite He2, He1, app_assoc|].
  split; [apply List.filter_app|]. split; [|exact Hf2].
  destruct (runQuery || negb (collectedSourceLogins (model p))); exact Hf1.
Qed.







(** * Further properties of the page *)

(** X1: whenever [selectedLogins] returns, it returns one record per
    selected row index that lies within the displayed rows, in the order of
    the indices, and the record holds the login name, login type and
    default database of that row. *)
Theorem selectedLogins_reads_selected_rows (p : Page) (sel : list LoginTableInfo) :
  selectedLogins p = Return sel ->
  Forall2 (fun i login =>
             exists row,
               data (_loginSelectorTable p) !! i = Some row /\
               loginName login = JsOps.cell row 1 /\
               loginType login = JsOps.cell row 2 /\
               defaultDatabaseName login = JsOps.cell row 3)
          (List.filter (fun i => Nat.ltb i (length (data (_loginSelectorTable p))))
                       (selectedIndices p))
          sel.
Proof.
  unfold selectedLogins, selectedIndices. cbv zeta. intros H.
  apply mapO_Return in H. eapply Forall2_impl; [exact H|].
  intros i login. cbv beta.
  destruct (data (_loginSelectorTable p) !! i) as [row|]; [|discriminate].
  destruct (JsOps.title (JsOps.cell row 4)) as [st|e]; [|discriminate].
  cbn [bindO]. intros [= <-]. exists row. repeat split; reflexivity.
Qed.

Lemma selectedLogins_reads_selected_rows_witness :
  Forall2 (fun i login =>
             exists row,
               data (_loginSelectorTable Sample.loadedPage) !! i = Some row /\
               loginName login = JsOps.cell row 1 /\
               loginType login = JsOps.cell row 2 /\
               defaultDatabaseName login = JsOps.cell row 3)
          [0%nat]
          [mkLogin (JStr "Alice") (JStr "sql_login") (JStr "master") JUndefined].
Proof.
  apply (selectedLogins_reads_selected_rows Sample.loadedPage). reflexivity.
Defined.

(** X2: [selectedLogins] throws only a [TypeError], and only when a
    selected index points at a displayed row that has no status cell: the
    read of [.title] of [undefined]. *)
Theorem selectedLogins_throws_on_missing_status (p : Page) (e : JsError) :
  selectedLogins p = Throw e ->
  e = TypeError /\
  exists i row,
    i ∈ selectedIndices p /\
    data (_loginSelectorTable p) !! i = Some row /\
    JsOps.cell row 4 = JUndefined.
Proof.
  unfold selectedLogins, selectedIndices. cbv zeta. intros H.
  apply mapO_Throw in H as (i & Hi & Hf).
  apply list_elem_of_In, filter_In in Hi as [Hi Hlt]. apply list_elem_of_In in Hi.
  apply Nat.ltb_lt, lookup_lt_is_Some_2 in Hlt as [row Hrow].
  unfold Row in *. rewrite Hrow in Hf.
  destruct (JsOps.cell row 4) eqn:Hc; try discriminate.
  cbn in Hf. injection Hf as <-. split; [reflexivity|]. exists i, row. auto.
Qed.

Lemma selectedLogins_throws_on_missing_status_witness :
  let p := set__loginSelectorTable
             {| data := [[JBool true; JStr "Alice"]]; selectedRows := Some [0%nat];
                height := 600 |} Sample.initialPage in
  TypeError = TypeError /\
  exists i row,
    i ∈ selectedIndices p /\
    data (_loginSelectorTable p) !! i = Some row /\
    JsOps.cell row 4 = JUndefined.
Proof.
  intros p. apply (selectedLogins_throws_on_missing_status p). reflexivity.
Defined.

(** X3: with a defined list of logins for migration, the click handler of
    the validate button never throws; on the empty list it sets the error
    message and changes nothing else, on a non-empty list it opens the
    dialog with the stored validation results and changes nothing else. *)
Theorem validate_with_defined_selection (p : Page) (l : list LoginTableInfo) :
  loginsForMigration (model p) = Some l ->
  _validateLoginPreMigration p =
  (Return tt,
   match l with
   | [] => upd_wizard (set_message (Some (errorMessage SELECT_LOGIN_TO_CONTINUE))) p
   | _ :: _ =>
       set_effects
         (effects p ++
          [OpenDialog VALIDATION_DIALOG_TITLE
             (_validateLoginMigration (migrationStateModel p))])%list p
   end).
Proof.
  intros H. unfold _validateLoginPreMigration. rewrite run_bind_get. cbv beta.
  rewrite H. destruct l; reflexivity.
Qed.

Lemma validate_with_defined_selection_witness :
  let p := upd_loginMigrationModel (set_loginsForMigration (Some []))
             Sample.initialPage in
  _validateLoginPreMigration p =
  (Return tt, upd_wizard (set_message (Some (errorMessage SELECT_LOGIN_TO_CONTINUE))) p).
Proof.
  intros p. apply (validate_with_defined_selection p []). reflexivity.
Defined.

(** X4: when the handler of a selection change returns, the model's logins
    for migration are the logins selected in the table, before and after;
    the count text shows their number and the number of displayed rows; on
    the current page the next button is enabled exactly when a login is
    selected, and off the current page the wizard is left alone. *)
Theorem selection_change_records_selection `{host : Host} (p p' : Page) :
  handle RowSelected p = (Return tt, p') ->
  exists sel,
    selectedLogins p = Return sel /\
    selectedLogins p' = Return sel /\
    loginsForMigration (model p') = Some sel /\
    _loginCount p' =
      LOGINS_SELECTED (length sel) (length (data (_loginSelectorTable p))) /\
    (_isCurrentPage p = true ->
     nextButton_label (wizard p') = LOGIN_MIGRATE_BUTTON_TEXT /\
     nextButton_enabled (wizard p') = negb (Nat.eqb (length sel) 0)) /\
    (_isCurrentPage p = false -> wizard p' = wizard p).
Proof.
  cbn [handle]. rewrite updateValuesOnSelection_run.
  destruct (selectedLogins p) as [sel|e] eqn:Hsel; [|discriminate].
  intros [= <-]. exists sel. split; [reflexivity|].
  unfold afterSelection. cbv zeta.
  change (_isCurrentPage (upd_loginSelectorTable _ _)) with (_isCurrentPage p).
  destruct (_isCurrentPage p);
    (split; [exact Hsel|]); repeat split; try discriminate; try reflexivity.
  cbn. now destruct sel.
Qed.

Lemma selection_change_records_selection_witness :
  exists p' sel,
    @handle Sample.working RowSelected Sample.loadedPage = (Return tt, p') /\
    selectedLogins p' = Return sel /\
    loginsForMigration (model p') = Some sel.
Proof.
  assert (exists p', @handle Sample.working RowSelected Sample.loadedPage
                     = (Return tt, p')) as [p' Hrun].
  { eexists. vm_compute. reflexivity. }
  destruct (@selection_change_records_selection Sample.working _ p' Hrun)
    as (sel & _ & Hafter & Hmodel & _).
  exists p', sel. auto.
Defined.

(** X5: when [_loadLoginList] returns, the refresh info box is displayed
    with the success style and the text counting the source and target
    logins of the model, and the loading indicator is off. *)
Theorem load_ends_with_success_box `{host : Host} (runQuery : bool) (p p' : Page) :
  _loadLoginList runQuery p = (Return tt, p') ->
  _refreshResultsInfoBox p' =
    {| style := StyleSuccess;
       text := LOGIN_MIGRATION_REFRESH_LOGIN_DATA_SUCCESSFUL
                 (length (loginsOnSource (model p')))
                 (length (loginsOnTarget (model p')));
       display := true |} /\
  _refreshLoading p' = false.
Proof.
  intros H. apply loadLoginList_end in H as (q & -> & Hbox & Hloading).
  destruct (afterNextButton_frame q) as (-> & -> & -> & _).
  split; assumption.
Qed.

Lemma load_ends_with_success_box_witness :
  exists p',
    @_loadLoginList Sample.working true Sample.initialPage = (Return tt, p') /\
    style (_refreshResultsInfoBox p') = StyleSuccess /\
    _refreshLoading p' = false.
Proof.
  assert (exists p', @_loadLoginList Sample.working true Sample.initialPage
                     = (Return tt, p')) as [p' Hrun].
  { eexists. vm_compute. reflexivity. }
  destruct (@load_ends_with_success_box Sample.working true _ p' Hrun) as [Hbox Hl].
  exists p'. split; [exact Hrun|]. split; [now rewrite Hbox | exact Hl].
Defined.

(** X6: a failure of the source query does not stop [_loadLoginList]: when
    it returns, the info box shows the success style, so the error style
    set by the handler is gone, while the wizard message still reports a
    failed query. *)
Theorem failed_query_ends_in_success_box `{host : Host} (p p' : Page) (e : JsError) :
  fst (getSourceLogins (migrationStateModel p)) = Throw e ->
  _loadLoginList true p = (Return tt, p') ->
  style (_refreshResultsInfoBox p') = StyleSuccess /\
  exists which e',
    message (wizard p') =
      Some {| msg_text := LOGIN_MIGRATIONS_GET_LOGINS_ERROR_TITLE which;
              msg_level := LevelError;
              msg_description :=
                Some (LOGIN_MIGRATIONS_GET_LOGINS_ERROR (error_message e')) |}.
Proof.
  intros Hfail Hrun. split.
  { apply loadLoginList_end in Hrun as (q & -> & Hbox & _).
    destruct (afterNextButton_frame q) as (_ & -> & _). now rewrite Hbox. }
  revert Hrun. unfold _loadLoginList. rewrite run_bind_get. cbv beta zeta.
  assert (exists p1,
            (q <- get ;;
             if true || negb (collectedSourceLogins (model q))
             then _markRefreshDataStart ;; _getSourceLogins
             else ret tt) p = (Return tt, p1) /\
            message (wizard p1) =
              Some {| msg_text := LOGIN_MIGRATIONS_GET_LOGINS_ERROR_TITLE "source";
                      msg_level := LevelError;
                      msg_description :=
                        Some (LOGIN_MIGRATIONS_GET_LOGINS_ERROR (error_message e)) |})
    as (p1 & Hrun1 & Hmsg1).
  { rewrite run_bind_get. cbn [orb].
    destruct (markRefreshDataStart_run p) as (q & Hq & _ & Hstate).
    rewrite (run_bind_Return _ _ _ _ _ Hq). rewrite <- Hstate in Hfail.
    exact (getSourceLogins_failure q e Hfail). }
  rewrite (run_bind_Return _ _ _ _ _ Hrun1).
  assert (exists p2,
            (q <- get ;;
             if true || negb (collectedTargetLogins (model q))
             then _markRefreshDataStart ;; _getTargetLogins
             else ret tt) p1 = (Return tt, p2) /\
            (message (wizard p2) = message (wizard p1) \/
             exists e',
               message (wizard p2) =
                 Some {| msg_text := LOGIN_MIGRATIONS_GET_LOGINS_ERROR_TITLE "target";
                         msg_level := LevelError;
                         msg_description :=
                           Some (LOGIN_MIGRATIONS_GET_LOGINS_ERROR
                                   (error_message e')) |}))
    as (p2 & Hrun2 & Hmsg2).
  { rewrite run_bind_get. cbn [orb].
    destruct (markRefreshDataStart_run p1) as (q1 & Hq1 & _ & _).
    assert (message (wizard q1) = message (wizard p1)) as Hmsgq.
    { change q1 with (snd (Return tt, q1)). rewrite <- Hq1.
      unfold _markRefreshDataStart.
      apply (preserves_bind (fun x => message (wizard x))); [|intros ?]; frame. }
    rewrite (run_bind_Return _ _ _ _ _ Hq1).
    destruct (getTargetLogins_message q1) as (p2 & Hp2 & Hmsg2).
    exists p2. split; [exact Hp2|]. now rewrite <- Hmsgq. }
  rewrite (run_bind_Return _ _ _ _ _ Hrun2).
  intros Hrest.
  assert (message (wizard p') = message (wizard p2)) as ->.
  { change p' with (snd (Return tt, p')). rewrite <- Hrest.
    apply (preserves_bind (fun x => message (wizard x))); [|intros ?]; frame. }
  destruct Hmsg2 as [->|[e' ->]]; [|eauto].
  rewrite Hmsg1. eauto.
Qed.

Lemma failed_query_ends_in_success_box_witness :
  exists p',
    @_loadLoginList Sample.failing true Sample.initialPage = (Return tt, p') /\
    style (_refreshResultsInfoBox p') = StyleSuccess /\
    exists which e',
      message (wizard p') =
        Some {| msg_text := LOGIN_MIGRATIONS_GET_LOGINS_ERROR_TITLE which;
                msg_level := LevelError;
                msg_description :=
                  Some (LOGIN_MIGRATIONS_GET_LOGINS_ERROR (error_message e')) |}.
Proof.
  assert (exists p', @_loadLoginList Sample.failing true Sample.initialPage
                     = (Return tt, p')) as [p' Hrun].
  { eexists. vm_compute. reflexivity. }
  exists p'. split; [exact Hrun|].
  apply (@failed_query_ends_in_success_box Sample.failing Sample.initialPage p'
           (Error "connection lost")); [reflexivity | exact Hrun].
Defined.

(** X7: while the target instance, user name or password is missing,
    [_getTargetLogins] calls nothing and leaves the page as it is. *)
Theorem no_target_query_without_target `{host : Host} (p : Page) :
  isTargetInstanceSet (migrationStateModel p) = false ->
  _getTargetLogins p = (Return tt, p).
Proof.
  intros H. unfold _getTargetLogins, tryCatch. rewrite run_bind_get. cbv beta zeta.
  rewrite H. reflexivity.
Qed.

Lemma no_target_query_without_target_witness :
  let p := set_migrationStateModel
             {| _loginMigrationModel := Sample.initialModel;
                _aadDomainName := None;
                _targetServerInstance := Some "instance-id";
                _targetUserName := Some "admin";
                _targetPassword := Some EmptyString;
                _targetPort := None;
                _validateLoginMigration := [] |} Sample.initialPage in
  @_getTargetLogins Sample.working p = (Return tt, p).
Proof.
  intros p. apply (@no_target_query_without_target Sample.working p). reflexivity.
Defined.

(** X8: when the target query succeeds, [_getTargetLogins] stores its
    logins in the model and marks them collected; it calls the query once
    and touches neither the wizard nor the info box. *)
Theorem target_query_stores_logins `{host : Host} (p : Page) (targetLogins : list string) :
  let stateMachine := migrationStateModel p in
  isTargetInstanceSet stateMachine = true ->
  collectTargetLogins (targetServerName stateMachine)
    (_targetServerInstance stateMachine) (_targetUserName stateMachine)
    (_targetPassword stateMachine) (_targetPort stateMachine)
    (isWindowsAuthMigrationSupported stateMachine) = Return targetLogins ->
  exists p',
    _getTargetLogins p = (Return tt, p') /\
    loginsOnTarget (model p') = targetLogins /\
    collectedTargetLogins (model p') = true /\
    loginsOnSource (model p') = loginsOnSource (model p) /\
    loginsForMigration (model p') = loginsForMigration (model p) /\
    wizard p' = wizard p /\
    _refreshResultsInfoBox p' = _refreshResultsInfoBox p /\
    effects p' =
      (effects p ++ [CollectTargetLoginsCalled; CollectTargetLoginsSettled None])%list.
Proof.
  intros stateMachine Hset H.
  unfold _getTargetLogins, tryCatch, emit, bind, get, modify, liftO.
  cbn. fold stateMachine. rewrite Hset. cbn. fold stateMachine. rewrite H. cbn.
  eexists. split; [reflexivity|]. cbn.
  repeat split. rewrite <- !app_assoc. reflexivity.
Qed.

Lemma target_query_stores_logins_witness :
  exists p',
    @_getTargetLogins Sample.working Sample.initialPage = (Return tt, p') /\
    loginsOnTarget (model p') = ["ALICE"; "carol"] /\
    collectedTargetLogins (model p') = true.
Proof.
  destruct (@target_query_stores_logins Sample.working Sample.initialPage
              ["ALICE"; "carol"] eq_refl eq_refl) as (p' & H1 & H2 & H3 & _).
  exists p'. auto.
Defined.

(** X9: once the source and the target logins were collected,
    [_loadLoginList(false)], as called on entering the page, runs no query
    and leaves the state object as it is. *)
Theorem load_reuses_collected_logins `{host : Host} (p : Page) :
  collectedSourceLogins (model p) = true ->
  collectedTargetLogins (model p) = true ->
  effects (snd (_loadLoginList false p)) = effects p /\
  migrationStateModel (snd (_loadLoginList false p)) = migrationStateModel p.
Proof.
  intros Hs Ht. unfold _loadLoginList. rewrite run_bind_get. cbv beta zeta.
  assert ((q <- get ;;
           if false || negb (collectedSourceLogins (model q))
           then _markRefreshDataStart ;; _getSourceLogins
           else ret tt) p = (Return tt, p)) as H1.
  { rewrite run_bind_get, Hs. reflexivity. }
  rewrite (run_bind_Return _ _ _ _ _ H1).
  assert ((q <- get ;;
           if false || negb (collectedTargetLogins (model q))
           then _markRefreshDataStart ;; _getTargetLogins
           else ret tt) p = (Return tt, p)) as H2.
  { rewrite run_bind_get, Ht. reflexivity. }
  rewrite (run_bind_Return _ _ _ _ _ H2).
  split.
  - apply (preserves_bind effects); [|intros ?]; frame.
  - apply (preserves_bind migrationStateModel); [|intros ?]; frame.
Qed.

Lemma load_reuses_collected_logins_witness :
  exists p',
    @_loadLoginList Sample.working true Sample.initialPage = (Return tt, p') /\
    effects (snd (@_loadLoginList Sample.working false p')) = effects p'.
Proof.
  assert (exists p', @_loadLoginList Sample.working true Sample.initialPage
                     = (Return tt, p')) as [p' Hrun].
  { eexists. vm_compute. reflexivity. }
  exists p'. split; [exact Hrun|].
  apply (@load_reuses_collected_logins Sample.working p').
  - change p' with (snd (Return tt, p')). rewrite <- Hrun. vm_compute. reflexivity.
  - change p' with (snd (Return tt, p')). rewrite <- Hrun. vm_compute. reflexivity.
Defined.

(** X10: after a successful validation, [updateValidationResultUI] leaves
    as validated exactly the names of the selected logins, so that
    [_isAllSelectedLoginsValidated] holds; it records the AAD domain name
    when windows logins are selected, shows the success message and sends
    one telemetry event with the number of logins for migration. *)
Theorem validation_success_marks_selected_logins `{host : Host}
    (initializing : bool) (p : Page) (l sel : list LoginTableInfo) :
  isLoginMigrationTargetValidated (migrationStateModel p) = true ->
  loginsForMigration (model p) = Some l ->
  selectedLogins p = Return sel ->
  exists p',
    updateValidationResultUI initializing p = (Return tt, p') /\
    (forall x, x ∈ _successfullyValidatedLogins p' <->
               exists login, login ∈ sel /\ loginName login = x) /\
    _isAllSelectedLoginsValidated p' = Return true /\
    (selectedWindowsLogins (model p) = true ->
     _successfullyValidatedEntraDomain p' = _aadDomainName (migrationStateModel p)) /\
    message (wizard p') =
      Some {| msg_text := LOGIN_MIGRATION_VALIDATION_MESSAGE_SUCCESS;
              msg_level := LevelInformation;
              msg_description := None |} /\
    effects p' =
      (effects p ++
       [SendSqlMigrationActionEvent LoginMigrationSelectorPage
          LoginMigrationPreValidationSuccessful (NumberLogins (length l))])%list.
Proof.
  intros Hvalid Hl Hsel.
  unfold updateValidationResultUI, _logLoginMigrationPreValidationSuccessful, emit.
  rewrite run_bind_get. cbv beta zeta. rewrite Hvalid, run_bind_modify.
  unfold bind at 1. rewrite run_bind_get, run_bind_liftO.
  unfold numberLogins.
  change (model (set__successfullyValidatedLogins ∅ p)) with (model p).
  rewrite Hl. unfold modify at 1. cbv beta iota.
  rewrite run_bind_get, run_bind_liftO. cbv beta.
  match goal with
  | |- context [selectedLogins ?q] => change (selectedLogins q) with (selectedLogins p)
  end.
  rewrite Hsel, run_bind_modify.
  assert (Hset : forall x,
            x ∈ fold_left (fun s login => {[ loginName login ]} ∪ s) sel
                  (∅ : gset JsVal) <->
            exists login, login ∈ sel /\ loginName login = x).
  { intros x. rewrite elem_of_fold_names. split; [|auto].
    intros [H|H]; [|exact H]. now apply not_elem_of_empty in H. }
  unfold bind, modify, ret.
  destruct (selectedWindowsLogins _) eqn:Hw; cbn [fst snd];
    (eexists; split; [reflexivity|]);
    (split; [intros x; cbn; apply Hset|]);
    (split;
     [ unfold _isAllSelectedLoginsValidated;
       match goal with
       | |- context [selectedLogins ?q] =>
           change (selectedLogins q) with (selectedLogins p)
       end;
       rewrite Hsel; cbn [bindO]; f_equal;
       apply forallb_forall; intros login Hin;
       apply bool_decide_eq_true; cbn; apply Hset;
       exists login; split; [now apply list_elem_of_In | reflexivity]
     | ]);
    repeat split; try reflexivity; try discriminate.
Qed.

Lemma validation_success_marks_selected_logins_witness :
  let p := upd_loginMigrationModel (set_loginsForMigration (Some [Sample.alice]))
             Sample.loadedPage in
  exists p',
    @updateValidationResultUI Sample.working false p = (Return tt, p') /\
    _isAllSelectedLoginsValidated p' = Return true.
Proof.
  intros p.
  destruct (@validation_success_marks_selected_logins Sample.working false p
              [Sample.alice]
              [mkLogin (JStr "Alice") (JStr "sql_login") (JStr "master") JUndefined]
              eq_refl eq_refl eq_refl) as (p' & Hrun & _ & Hall & _).
  exists p'. auto.
Defined.

(** X11: whatever path [updateValidationResultUI] takes, returning or
    throwing, a name is in the validated set afterwards only if the target
    is validated and the name is that of a login selected in the table: no
    earlier validation survives the call. *)
Theorem no_validation_survives_the_update `{host : Host}
    (initializing : bool) (p : Page) (x : JsVal) :
  x ∈ _successfullyValidatedLogins (snd (updateValidationResultUI initializing p)) ->
  isLoginMigrationTargetValidated (migrationStateModel p) = true /\
  exists sel login,
    selectedLogins p = Return sel /\ login ∈ sel /\ loginName login = x.
Proof.
  unfold updateValidationResultUI, _logLoginMigrationPreValidationSuccessful,
    _logLoginMigrationPreValidationFailed, emit.
  rewrite run_bind_get. cbv beta zeta. rewrite run_bind_modify.
  destruct (isLoginMigrationTargetValidated (migrationStateModel p)).
  - unfold bind at 1. rewrite run_bind_get, run_bind_liftO.
    destruct (numberLogins _) as [n|e]; cbn [fst snd].
    + unfold modify at 1. cbv beta iota.
      rewrite run_bind_get, run_bind_liftO. cbv beta.
      match goal with
      | |- context [selectedLogins ?q] =>
          change (selectedLogins q) with (selectedLogins p)
      end.
      destruct (selectedLogins p) as [sel|e]; cbn [fst snd].
      * rewrite run_bind_modify. unfold bind, modify, ret.
        destruct (selectedWindowsLogins _); cbn; rewrite elem_of_fold_names;
          (intros [H|(login & Hin & Hn)];
           [now apply not_elem_of_empty in H | split; [reflexivity|eauto]]).
      * cbn. intros H. now apply not_elem_of_empty in H.
    + cbn. intros H. now apply not_elem_of_empty in H.
  - intros H. exfalso. revert H.
    match goal with
    | |- _ ∈ _successfullyValidatedLogins (snd (?c ?q)) -> _ =>
        assert (_successfullyValidatedLogins (snd (c q))
                = _successfullyValidatedLogins q) as ->
    end.
    { apply (preserves_bind _successfullyValidatedLogins); [|intros ?]; frame. }
    cbn. apply not_elem_of_empty.
Qed.

Lemma no_validation_survives_the_update_witness :
  let p := upd_loginMigrationModel (set_loginsForMigration (Some [Sample.alice]))
             Sample.loadedPage in
  exists sel login,
    selectedLogins p = Return sel /\ login ∈ sel /\ loginName login = JStr "Alice".
Proof.
  intros p.
  apply (@no_validation_survives_the_update Sample.working false p (JStr "Alice")).
  cbn. apply elem_of_union. left. apply elem_of_singleton. reflexivity.
Defined.

(** X12: while [loginsForMigration] is [undefined],
    [updateValidationResultUI] throws a [TypeError] at the read of its
    [length] for the telemetry event, having only emptied the set of
    validated logins: no event is sent and no message is set. *)
Theorem validation_update_throws_on_undefined_selection `{host : Host}
    (initializing : bool) (p : Page) :
  loginsForMigration (model p) = None ->
  updateValidationResultUI initializing p =
  (Throw TypeError, set__successfullyValidatedLogins ∅ p).
Proof.
  intros H.
  unfold updateValidationResultUI, _logLoginMigrationPreValidationSuccessful,
    _logLoginMigrationPreValidationFailed.
  rewrite run_bind_get. cbv beta zeta. rewrite run_bind_modify.
  destruct (isLoginMigrationTargetValidated (migrationStateModel p));
    unfold bind at 1; rewrite run_bind_get, run_bind_liftO; unfold numberLogins;
    change (model (set__successfullyValidatedLogins ∅ p)) with (model p);
    rewrite H; reflexivity.
Qed.

Lemma validation_update_throws_on_undefined_selection_witness :
  @handle Sample.working ValidationDialogClosed
    (@step Sample.working ValidateClicked Sample.initialPage) =
  (Throw TypeError,
   set__successfullyValidatedLogins ∅
     (@step Sample.working ValidateClicked Sample.initialPage)).
Proof.
  apply (@validation_update_throws_on_undefined_selection Sample.working false).
  reflexivity.
Defined.

(** X13: after a validation that did not succeed, with a defined list of
    logins for migration, [updateValidationResultUI] returns with no login
    validated and one telemetry event sent; while initializing with no
    results it leaves the wizard alone, otherwise it sets an error message:
    not run without results, canceled with results but no errors, and the
    joined errors otherwise. *)
Theorem validation_failure_reports_errors `{host : Host}
    (initializing : bool) (p : Page) (l : list LoginTableInfo) :
  isLoginMigrationTargetValidated (migrationStateModel p) = false ->
  loginsForMigration (model p) = Some l ->
  let results := _validateLoginMigration (migrationStateModel p) in
  let errs := flat_map errors results in
  exists p',
    updateValidationResultUI initializing p = (Return tt, p') /\
    _successfullyValidatedLogins p' = ∅ /\
    effects p' =
      (effects p ++
       [SendSqlMigrationActionEvent LoginMigrationSelectorPage
          LoginMigrationPreValidationFailed (NumberLogins (length l))])%list /\
    wizard p' =
      match results, initializing with
      | [], true => wizard p
      | [], false =>
          set_message (Some (errorMessage VALIDATION_MESSAGE_NOT_RUN)) (wizard p)
      | _ :: _, _ =>
          set_message
            (Some (errorMessage
                     match errs with
                     | [] => VALIDATION_MESSAGE_CANCELED
                     | _ :: _ =>
                         if existsb isCanceled results
                         then VALIDATION_MESSAGE_CANCELED_ERRORS (join EOL errs)
                         else VALIDATE_LOGIN_MIGRATION_VALIDATION_COMPLETED_ERRORS
                                (join EOL errs)
                     end))
            (wizard p)
      end.
Proof.
  intros Hvalid Hl results errs.
  unfold updateValidationResultUI, _logLoginMigrationPreValidationFailed, emit.
  rewrite run_bind_get. cbv beta zeta. rewrite Hvalid, run_bind_modify.
  unfold bind at 1. rewrite run_bind_get, run_bind_liftO.
  unfold numberLogins.
  change (model (set__successfullyValidatedLogins ∅ p)) with (model p).
  rewrite Hl. unfold modify at 1. cbv beta iota. rewrite run_bind_get. cbv beta.
  match goal with
  | |- context [_validateLoginMigration (migrationStateModel ?q)] =>
      change (_validateLoginMigration (migrationStateModel q)) with results
  end.
  fold errs.
  destruct results as [|r results]; cbn [length Nat.ltb Nat.leb negb andb].
  - destruct initializing; cbn [andb]; eexists; split; try reflexivity;
      repeat split; reflexivity.
  - rewrite andb_false_r.
    destruct errs as [|err errs']; cbn [length Nat.ltb Nat.leb];
      eexists; (split; [reflexivity|]); repeat split; reflexivity.
Qed.

Lemma validation_failure_reports_errors_witness :
  let p := upd_loginMigrationModel (set_loginsForMigration (Some [Sample.alice]))
             Sample.loadedPage in
  exists p',
    @updateValidationResultUI Sample.failing false p = (Return tt, p') /\
    message (wizard p') = Some (errorMessage VALIDATION_MESSAGE_NOT_RUN).
Proof.
  intros p.
  destruct (@validation_failure_reports_errors Sample.failing false p [Sample.alice]
              eq_refl eq_refl) as (p' & Hrun & _ & _ & Hwizard).
  exists p'. split; [exact Hrun|]. rewrite Hwizard. reflexivity.
Defined.

(** X14: the navigation validator registered on entering the page changes
    nothing but the wizard message.  When it permits the move the message
    is the empty error text; when it refuses, the message is one of its
    four error texts. *)
Theorem validator_only_sets_the_message `{host : Host}
    (info : PageChangeInfo) (p : Page) :
  exists t,
    snd (validatorOfPageEnter info p) =
      upd_wizard (set_message (Some (errorMessage t))) p /\
    (fst (validatorOfPageEnter info p) = Return true -> t = EMPTY_TEXT) /\
    (fst (validatorOfPageEnter info p) = Return false ->
     t = SELECT_LOGIN_AND_RUN_VALIDATION_TO_CONTINUE \/ t = ENTER_ENTRA_ID \/
     t = ENTRA_DOMAIN_NOT_VALIDATED \/ t = VALIDATE_ALL_LOGINS).
Proof.
  unfold validatorOfPageEnter. rewrite run_bind_modify.
  destruct (newPage info <? lastPage info).
  { exists EMPTY_TEXT. cbn. split; [reflexivity|]. split; [reflexivity|discriminate]. }
  rewrite run_bind_get, run_bind_liftO. cbv beta.
  set (p1 := upd_wizard _ p).
  change (selectedLogins p1) with (selectedLogins p).
  destruct (selectedLogins p) as [sel|e]; cycle 1.
  { exists EMPTY_TEXT. cbn. split; [reflexivity|]. split; [reflexivity|discriminate]. }
  destruct (_ || _).
  { exists SELECT_LOGIN_AND_RUN_VALIDATION_TO_CONTINUE. cbn.
    split; [reflexivity|]. split; [discriminate|auto]. }
  destruct (_ && _).
  { exists ENTER_ENTRA_ID. cbn. split; [reflexivity|]. split; [discriminate|auto]. }
  destruct (_ && _).
  { exists ENTRA_DOMAIN_NOT_VALIDATED. cbn.
    split; [reflexivity|]. split; [discriminate|auto]. }
  rewrite run_bind_liftO. unfold _isAllSelectedLoginsValidated.
  change (selectedLogins p1) with (selectedLogins p).
  destruct (selectedLogins p) as [sel'|e]; cbn [bindO].
  - destruct (forallb _ sel'); cbn [negb].
    + exists EMPTY_TEXT. cbn. split; [reflexivity|]. split; [reflexivity|discriminate].
    + exists VALIDATE_ALL_LOGINS. cbn.
      split; [reflexivity|]. split; [discriminate|auto 6].
  - exists EMPTY_TEXT. cbn. split; [reflexivity|]. split; discriminate.
Qed.

(** X15: after [onPageLeave] the wizard's validator permits every move and
    changes nothing, the next button carries its default label and is
    enabled, and the registered validator is the one of [onPageLeave]. *)
Theorem leaving_permits_every_move `{host : Host} (info : PageChangeInfo) (p : Page) :
  let p' := step PageLeave p in
  runNavigationValidator info p' = (Return (Some true), p') /\
  nextButton_label (wizard p') = NEXT_LABEL /\
  nextButton_enabled (wizard p') = true /\
  navigationValidator (wizard p') = Some ValidatorOfPageLeave.
Proof. repeat split; reflexivity. Qed.

(** X16: when a filter returns, the displayed rows are a sub-list of the
    stored rows, in their order, and the search text is recorded; with an
    [undefined] search text every stored row is displayed. *)
Theorem filters_display_a_sublist `{host : Host} (value : option string)
    (selectedList : option (list LoginTableInfo)) (p : Page) :
  (forall p', _filterTableList value selectedList p = (Return tt, p') ->
     sublist (data (_loginSelectorTable p')) (default [] (_loginTableValues p)) /\
     _filterTableValue p' = value /\
     (value = None ->
      data (_loginSelectorTable p') = default [] (_loginTableValues p))) /\
  (forall p', _filterSystemTableList value p = (Return tt, p') ->
     sublist (data (_systemLoginTable p')) (default [] (_systemLoginTableValues p)) /\
     _filterSystemLoginTableValue p' = value /\
     (value = None ->
      data (_systemLoginTable p') = default [] (_systemLoginTableValues p))).
Proof.
  assert (Hrows : forall (matches : string -> Row -> Outcome bool) stored tableRows,
            match stored, value with
            | Some rows, Some v =>
                if hasLength value then filterO (matches (Js.toLowerCase v)) rows
                else Return rows
            | Some rows, None => Return rows
            | None, _ => Return []
            end = Return tableRows ->
            sublist tableRows (default [] stored) /\
            (value = None -> tableRows = default [] stored)).
  { intros matches stored tableRows.
    destruct stored as [rows|]; [|intros [= <-]; split; [constructor|reflexivity]].
    destruct value as [v|]; [|intros [= <-]; split; reflexivity].
    destruct (hasLength (Some v)).
    - intros H. split; [now apply filterO_sublist in H|discriminate].
    - intros [= <-]. split; [reflexivity|discriminate]. }
  split; intros p'.
  - rewrite filterTableList_run. cbv zeta.
    destruct (match selectedList with Some l => Return l | None => selectedLogins p end)
      as [selection|e]; [|discriminate].
    destruct (match _loginTableValues p with Some _ => _ | None => _ end)
      as [tableRows|e] eqn:Ht; [|discriminate].
    destruct (selectRows selection tableRows 0) as [chosen|e]; [|discriminate].
    rewrite updateValuesOnSelection_run.
    destruct (selectedLogins _) as [sel'|e]; [|discriminate].
    intros [= <-]. rewrite (proj1 (afterSelection_table _ _)).
    apply Hrows in Ht as [Hsub Hall]. split; [exact Hsub|]. split; [|exact Hall].
    unfold afterSelection. cbv zeta. destruct (_isCurrentPage _); reflexivity.
  - unfold _filterSystemTableList.
    rewrite run_bind_modify, run_bind_get, run_bind_liftO. cbv beta.
    change (_systemLoginTableValues (set__filterSystemLoginTableValue value p))
      with (_systemLoginTableValues p).
    destruct (match _systemLoginTableValues p with Some _ => _ | None => _ end)
      as [tableRows|e] eqn:Ht; [|discriminate].
    intros [= <-]. apply Hrows in Ht as [Hsub Hall].
    split; [exact Hsub|]. split; [reflexivity|exact Hall].
Qed.

Lemma filters_display_a_sublist_witness :
  exists p',
    _filterSystemTableList (Some "zzz") Sample.loadedPage = (Return tt, p') /\
    sublist (data (_systemLoginTable p')) Sample.systemRows.
Proof.
  eexists. split; [reflexivity|].
  apply (proj2 (@filters_display_a_sublist Sample.working (Some "zzz") None
                  Sample.loadedPage)).
  reflexivity.
Defined.

Lemma validator_only_sets_the_message_witness :
  let info := {| newPage := 3; lastPage := 2 |} in
  exists t,
    snd (@validatorOfPageEnter Sample.working info Sample.initialPage) =
      upd_wizard (set_message (Some (errorMessage t))) Sample.initialPage /\
    (t = SELECT_LOGIN_AND_RUN_VALIDATION_TO_CONTINUE \/ t = ENTER_ENTRA_ID \/
     t = ENTRA_DOMAIN_NOT_VALIDATED \/ t = VALIDATE_ALL_LOGINS).
Proof.
  intros info.
  destruct (@validator_only_sets_the_message Sample.working info Sample.initialPage)
    as (t & Hpage & _ & Hrefused).
  exists t. split; [exact Hpage|]. apply Hrefused. reflexivity.
Defined.

(** X17: when [_loadLoginList] returns and the four fields of every source
    login of the model are strings, the rows it stores are login rows and
    system login rows, one per login, and [_loginNames] lists the names of
    the source logins in order. *)
Theorem load_stores_one_row_per_login `{host : Host} (runQuery : bool) (p p' : Page) :
  _loadLoginList runQuery p = (Return tt, p') ->
  forallb isStringLogin (loginsOnSource (model p')) = true ->
  forallb isStringLogin (systemLoginsOnSource (model p')) = true ->
  exists rows systemRows,
    _loginTableValues p' = Some rows /\
    _systemLoginTableValues p' = Some systemRows /\
    forallb isLoginRow rows = true /\
    forallb isSystemLoginRow systemRows = true /\
    length rows = length (loginsOnSource (model p')) /\
    length systemRows = length (systemLoginsOnSource (model p')) /\
    _loginNames p' = map loginName (loginsOnSource (model p')).
Proof.
  intros H Hsrc Hsys.
  apply loadLoginList_tables in H as (rows & systemRows & Ht & Hs & Hrows & Hsrows & Hn).
  exists rows, systemRows. apply mapO_Return in Hrows, Hsrows.
  split; [exact Ht|]. split; [exact Hs|].
  assert (Hshape : forall login, isStringLogin login = true ->
            exists n t d st, login = mkLogin (JStr n) (JStr t) (JStr d) (JStr st)).
  { intros [[] [] [] []]; try discriminate. intros _. eauto. }
  rewrite forallb_forall in Hsrc, Hsys.
  split; [|split; [|split; [|split]]].
  - apply forallb_forall. intros row Hrow. apply list_elem_of_In in Hrow.
    apply list_elem_of_lookup in Hrow as [i Hi].
    destruct (Forall2_lookup_r _ _ _ _ _ Hrows Hi) as (login & Hl & Hrow).
    apply list_elem_of_lookup_2, list_elem_of_In, Hsrc, Hshape in Hl
      as (n & t & d & st & ->).
    apply loginTableRow_Return in Hrow as (selected & b & -> & _). reflexivity.
  - apply forallb_forall. intros row Hrow. apply list_elem_of_In in Hrow.
    apply list_elem_of_lookup in Hrow as [i Hi].
    destruct (Forall2_lookup_r _ _ _ _ _ Hsrows Hi) as (login & Hl & Hrow).
    apply list_elem_of_lookup_2, list_elem_of_In, Hsys, Hshape in Hl
      as (n & t & d & st & ->).
    apply systemLoginTableRow_Return in Hrow as (b & -> & _). reflexivity.
  - symmetry. eapply Forall2_length; eauto.
  - symmetry. eapply Forall2_length; eauto.
  - exact Hn.
Qed.

Lemma load_stores_one_row_per_login_witness :
  exists p' rows,
    @_loadLoginList Sample.working false Sample.initialPage = (Return tt, p') /\
    _loginTableValues p' = Some rows /\
    forallb isLoginRow rows = true /\
    length rows = length (loginsOnSource (model p')).
Proof.
  assert (exists p', @_loadLoginList Sample.working false Sample.initialPage
                     = (Return tt, p') /\
                     forallb isStringLogin (loginsOnSource (model p')) = true /\
                     forallb isStringLogin (systemLoginsOnSource (model p')) = true)
    as (p' & Hrun & Hsrc & Hsys).
  { eexists. vm_compute. repeat split; reflexivity. }
  destruct (@load_stores_one_row_per_login Sample.working false _ p' Hrun Hsrc Hsys)
    as (rows & systemRows & Ht & _ & Hshape & _ & Hlen & _).
  exists p', rows. auto.
Defined.



(** X19: once the AAD domain-name box is emptied, the handler stores the
    empty string, and the validator of the page refuses every move that is
    not backward with the request to enter the domain, as long as windows
    logins are selected and the target is validated. *)
Theorem cleared_domain_blocks_forward_move `{host : Host} (info : PageChangeInfo)
    (value : option string) (p : Page) (sel : list LoginTableInfo) :
  let p' := step (AadDomainNameChanged value) p in
  default EmptyString value = EmptyString ->
  lastPage info <= newPage info ->
  selectedLogins p = Return sel ->
  sel <> [] ->
  isLoginMigrationTargetValidated (migrationStateModel p') = true ->
  selectedWindowsLogins (model p') = true ->
  _aadDomainName (migrationStateModel p') = Some EmptyString /\
  validatorOfPageEnter info p' =
    (Return false, upd_wizard (set_message (Some (errorMessage ENTER_ENTRA_ID))) p').
Proof.
  intros p' Hvalue Hfwd Hsel Hne Hvalid Hwin.
  assert (_aadDomainName (migrationStateModel p') = Some EmptyString) as Hdomain.
  { unfold p', step. cbn. now rewrite Hvalue. }
  split; [exact Hdomain|].
  unfold validatorOfPageEnter. rewrite run_bind_modify.
  assert ((newPage info <? lastPage info) = false) as -> by (apply Z.ltb_ge; lia).
  rewrite run_bind_get, run_bind_liftO. cbv beta.
  set (p1 := upd_wizard _ p').
  change (selectedLogins p1) with (selectedLogins p).
  change (migrationStateModel p1) with (migrationStateModel p').
  change (model p1) with (model p').
  rewrite Hsel, Hvalid, Hwin, Hdomain.
  destruct sel as [|login sel]; [congruence|]. reflexivity.
Qed.

Lemma cleared_domain_blocks_forward_move_witness :
  let p := upd_loginMigrationModel (set_loginsForMigration (Some [Sample.bob]))
             (upd_loginSelectorTable (set_selectedRows (Some [1%nat]))
                Sample.loadedPage) in
  let p' := @step Sample.working (AadDomainNameChanged None) p in
  @validatorOfPageEnter Sample.working {| newPage := 3; lastPage := 2 |} p' =
    (Return false, upd_wizard (set_message (Some (errorMessage ENTER_ENTRA_ID))) p').
Proof.
  intros p p'.
  apply (@cleared_domain_blocks_forward_move Sample.working
           {| newPage := 3; lastPage := 2 |} None p
           [mkLogin (JStr "CORP\bob") (JStr "windows_login") (JStr "sales") JUndefined]);
    try reflexivity; [simpl; lia | discriminate].
Defined.

(** X20: when [onPageEnter] returns, the next button carries the migrate
    label and is enabled exactly when the model holds a non-empty list of
    logins for migration, and the windows-authentication info box is
    displayed exactly when windows authentication is not supported. *)
Theorem entering_sets_up_the_page `{host : Host} (p p' : Page) :
  handle PageEnter p = (Return tt, p') ->
  nextButton_label (wizard p') = LOGIN_MIGRATE_BUTTON_TEXT /\
  nextButton_enabled (wizard p') =
    match loginsForMigration (model p') with
    | Some l => Nat.ltb 0 (length l)
    | None => false
    end /\
  _windowsAuthInfoBox p' = negb (isWindowsAuthMigrationSupported (migrationStateModel p)).
Proof.
  cbn [handle]. unfold onPageEnter, emit.
  repeat (rewrite run_bind_modify; cbv beta).
  rewrite (run_bind_Return _ _ _ _ _ (updateNextButton_run _)).
  rewrite run_bind_modify, run_bind_get, run_bind_modify. cbv beta.
  match goal with
  | |- _loadLoginList false ?q = _ -> _ => set (q0 := q)
  end.
  intros Hload.
  assert (_isCurrentPage p' = true /\
          _windowsAuthInfoBox p' =
            negb (isWindowsAuthMigrationSupported (migrationStateModel p)))
    as [Hcurrent Hbox].
  { change p' with (snd (Return tt, p')). rewrite <- Hload. split.
    - transitivity (_isCurrentPage q0).
      + unfold _loadLoginList. apply (preserves_bind _isCurrentPage); [|intros ?]; frame.
      + unfold q0, afterNextButton. cbn. reflexivity.
    - transitivity (_windowsAuthInfoBox q0).
      + unfold _loadLoginList.
        apply (preserves_bind _windowsAuthInfoBox); [|intros ?]; frame.
      + unfold q0, afterNextButton. cbn. reflexivity. }
  split; [|split; [|exact Hbox]];
    apply loadLoginList_end in Hload as (q & -> & _);
    destruct (afterNextButton_frame q) as (_ & _ & _ & Hc & _);
    rewrite Hc in Hcurrent; unfold afterNextButton; rewrite Hcurrent; reflexivity.
Qed.

Lemma entering_sets_up_the_page_witness :
  exists p',
    @handle Sample.working PageEnter Sample.initialPage = (Return tt, p') /\
    nextButton_label (wizard p') = LOGIN_MIGRATE_BUTTON_TEXT /\
    nextButton_enabled (wizard p') = false.
Proof.
  assert (exists p', @handle Sample.working PageEnter Sample.initialPage
                     = (Return tt, p') /\ loginsForMigration (model p') = None)
    as (p' & Hrun & Hnone).
  { eexists. vm_compute. split; reflexivity. }
  destruct (@entering_sets_up_the_page Sample.working _ p' Hrun) as (Hl & He & _).
  exists p'. split; [exact Hrun|]. split; [exact Hl|]. now rewrite He, Hnone.
Defined.

(** X21: when [_loadLoginList(true)] throws, the page stays as the start of
    the refresh left it: the next button is disabled and the info box does
    not show the success style. *)
Theorem failed_load_leaves_next_button_disabled `{host : Host}
    (p p' : Page) (e : JsError) :
  _loadLoginList true p = (Throw e, p') ->
  nextButton_enabled (wizard p') = false /\
  style (_refreshResultsInfoBox p') <> StyleSuccess.
Proof.
  unfold _loadLoginList. rewrite run_bind_get. cbv beta zeta.
  assert (exists p1,
            (q <- get ;;
             if true || negb (collectedSourceLogins (model q))
             then _markRefreshDataStart ;; _getSourceLogins
             else ret tt) p = (Return tt, p1)) as (p1 & Hrun1).
  { rewrite run_bind_get. cbn [orb].
    destruct (markRefreshDataStart_run p) as (q & Hq & _).
    rewrite (run_bind_Return _ _ _ _ _ Hq).
    destruct (getSourceLogins_run q) as (p1 & r & extra & H1 & _). eauto. }
  rewrite (run_bind_Return _ _ _ _ _ Hrun1).
  assert (exists p2,
            (q <- get ;;
             if true || negb (collectedTargetLogins (model q))
             then _markRefreshDataStart ;; _getTargetLogins
             else ret tt) p1 = (Return tt, p2) /\
            (refreshShown p2 = (false, StyleInformation) \/
             refreshShown p2 = (false, StyleError))) as (p2 & Hrun2 & Hshown).
  { rewrite run_bind_get. cbn [orb].
    destruct (markRefreshDataStart_shown p1) as (q & Hq & Hqs).
    rewrite (run_bind_Return _ _ _ _ _ Hq).
    destruct (getTargetLogins_shown q) as (p2 & Hp2 & Hs).
    exists p2. split; [exact Hp2|].
    destruct Hs as [->| ->]; [now left|].
    right. apply (f_equal fst) in Hqs. cbn in Hqs. now rewrite Hqs. }
  rewrite (run_bind_Return _ _ _ _ _ Hrun2).
  intros H.
  assert (refreshShown p' = refreshShown p2) as Hsame.
  { rewrite run_bind_get, run_bind_modify in H. cbv beta in H.
    pose proof (preserves_mapLoginTableRows refreshShown
                  (loginsOnTarget (model p2))
                  (default [] (loginsForMigration (model p)))
                  (loginsOnSource (model p2))
                  (fun _ _ => eq_refl) (set__loginNames [] p2)) as Hm.
    apply run_bind_Throw_inv in H as [H | (rows & q & Hmap & H)].
    { rewrite H in Hm. exact Hm. }
    rewrite Hmap in Hm. cbn [snd] in Hm.
    change (refreshShown (set__loginNames [] p2)) with (refreshShown p2) in Hm.
    unfold call_filterTableList in H.
    rewrite !run_bind_modify, run_bind_liftO in H. cbv beta in H.
    destruct (mapO (systemLoginTableRow _) _) as [systemRows|e0].
    - rewrite run_bind_modify in H. cbv beta in H.
      apply run_bind_Throw_inv in H as [H | ([] & q4 & _ & H)].
      + rewrite <- Hm.
        match type of H with
        | _ ?q3 = _ => transitivity (refreshShown q3); [|reflexivity]
        end.
        change p' with (snd (Throw (A := unit) e, p')). rewrite <- H.
        apply (preserves_bind refreshShown); [|intros ?]; frame.
      + unfold _markRefreshDataComplete in H.
        rewrite !run_bind_modify, updateNextButton_run in H. discriminate.
    - injection H as _ <-. rewrite <- Hm. reflexivity. }
  unfold refreshShown in *.
  destruct Hshown as [Hs|Hs]; rewrite <- Hsame in Hs; injection Hs as -> ->;
    split; [reflexivity | discriminate | reflexivity | discriminate].
Qed.

Lemma failed_load_leaves_next_button_disabled_witness :
  let p := upd_loginMigrationModel
             (fun m => {| loginsForMigration := Some [];
                          collectedSourceLogins := false;
                          collectedTargetLogins := false;
                          loginsOnSource := [mkLogin JUndefined JUndefined
                                               JUndefined JUndefined];
                          systemLoginsOnSource := [];
                          loginsOnTarget := ["alice"] |})
             Sample.initialPage in
  exists p',
    @_loadLoginList Sample.failing true p = (Throw TypeError, p') /\
    nextButton_enabled (wizard p') = false.
Proof.
  intros p.
  assert (exists p', @_loadLoginList Sample.failing true p = (Throw TypeError, p'))
    as [p' Hrun].
  { eexists. vm_compute. reflexivity. }
  exists p'. split; [exact Hrun|].
  exact (proj1 (@failed_load_leaves_next_button_disabled Sample.failing p p'
                  TypeError Hrun)).
Defined.



(** X23: when the source query succeeds, [_getSourceLogins] adopts the
    state object the query leaves, calls the query once, and touches
    neither the wizard nor the info box. *)
Theorem source_query_updates_the_state `{host : Host} (p : Page) :
  fst (getSourceLogins (migrationStateModel p)) = Return tt ->
  exists p',
    _getSourceLogins p = (Return tt, p') /\
    migrationStateModel p' = snd (getSourceLogins (migrationStateModel p)) /\
    wizard p' = wizard p /\
    _refreshResultsInfoBox p' = _refreshResultsInfoBox p /\
    effects p' =
      (effects p ++ [GetSourceLoginsCalled; GetSourceLoginsSettled None])%list.
Proof.
  intros H. unfold _getSourceLogins, tryCatch, emit, bind, get, modify, liftO.
  cbn. rewrite H. cbn. eexists. split; [reflexivity|]. cbn.
  repeat split. rewrite <- !app_assoc. reflexivity.
Qed.

Lemma source_query_updates_the_state_witness :
  exists p',
    @_getSourceLogins Sample.working Sample.initialPage = (Return tt, p') /\
    loginsOnSource (model p') = [Sample.alice; Sample.bob] /\
    wizard p' = wizard Sample.initialPage.
Proof.
  destruct (@source_query_updates_the_state Sample.working Sample.initialPage eq_refl)
    as (p' & Hrun & Hstate & Hwizard & _).
  exists p'. split; [exact Hrun|]. split; [|exact Hwizard].
  unfold model. rewrite Hstate. reflexivity.
Defined.

(** X24: when [_filterTableList] returns, the logins for migration are the
    logins selected in the table it leaves, each named on a displayed row:
    a selected login that the search text hides is no longer a login for
    migration. *)
Theorem filter_narrows_logins_for_migration `{host : Host} (value : option string)
    (selectedList : option (list LoginTableInfo)) (p p' : Page) :
  _filterTableList value selectedList p = (Return tt, p') ->
  exists sel,
    loginsForMigration (model p') = Some sel /\
    selectedLogins p' = Return sel /\
    Forall (fun login =>
              exists row, row ∈ data (_loginSelectorTable p') /\
                          loginName login = JsOps.cell row 1) sel.
Proof.
  rewrite filterTableList_run. cbv zeta.
  destruct (match selectedList with Some l => Return l | None => selectedLogins p end)
    as [selection|e]; [|discriminate].
  destruct (match _loginTableValues p with Some _ => _ | None => _ end)
    as [tableRows|e]; [|discriminate].
  destruct (selectRows selection tableRows 0) as [chosen|e]; [|discriminate].
  rewrite updateValuesOnSelection_run.
  match goal with
  | |- context [selectedLogins ?q] => set (q0 := q)
  end.
  destruct (selectedLogins q0) as [sel|e] eqn:Hsel; [|discriminate].
  intros [= <-]. exists sel.
  assert (selectedLogins (afterSelection sel q0) = Return sel) as Hafter.
  { rewrite <- Hsel. unfold afterSelection. cbv zeta.
    destruct (_isCurrentPage _); reflexivity. }
  split; [|split; [exact Hafter|]].
  - unfold afterSelection. cbv zeta. destruct (_isCurrentPage _); reflexivity.
  - rewrite (proj1 (afterSelection_table sel q0)).
    unfold selectedLogins in Hsel. cbv zeta in Hsel.
    apply mapO_Return in Hsel. apply Forall_forall. intros login Hin.
    apply list_elem_of_lookup in Hin as [i Hi].
    destruct (Forall2_lookup_r _ _ _ _ _ Hsel Hi) as (j & _ & Hrow).
    cbv beta in Hrow.
    destruct (data (_loginSelectorTable q0) !! j) as [row|] eqn:Hj; [|discriminate].
    destruct (JsOps.title (JsOps.cell row 4)); [|discriminate].
    cbn [bindO] in Hrow. injection Hrow as <-. exists row.
    split; [|reflexivity]. eapply list_elem_of_lookup_2. exact Hj.
Qed.

Lemma filter_narrows_logins_for_migration_witness :
  exists p',
    @_filterTableList Sample.working (Some "windows")
      (Some [Sample.alice; Sample.bob]) Sample.loadedPage = (Return tt, p') /\
    exists sel,
      loginsForMigration (model p') = Some sel /\
      Forall (fun login =>
                exists row, row ∈ data (_loginSelectorTable p') /\
                            loginName login = JsOps.cell row 1) sel.
Proof.
  assert (exists p', @_filterTableList Sample.working (Some "windows")
                       (Some [Sample.alice; Sample.bob]) Sample.loadedPage
                     = (Return tt, p')) as [p' Hrun].
  { eexists. vm_compute. reflexivity. }
  exists p'. split; [exact Hrun|].
  destruct (@filter_narrows_logins_for_migration Sample.working _ _ _ p' Hrun)
    as (sel & Hmodel & _ & Hrows).
  exists sel. auto.
Defined.

(** X25: on a table of login rows, whose status cell is a string,
    [selectedLogins] returns, and the status of every record it returns is
    [undefined], whatever the row shows. *)
Theorem selectedLogins_never_returns_a_status (p : Page) :
  forallb isLoginRow (data (_loginSelectorTable p)) = true ->
  exists sel,
    selectedLogins p = Return sel /\
    Forall (fun login => status login = JUndefined) sel.
Proof.
  intros Hrows. eexists. split; [now apply selectedLogins_rows|].
  apply Forall_forall. intros login Hin.
  apply list_elem_of_fmap in Hin as (row & -> & _). reflexivity.
Qed.

Lemma selectedLogins_never_returns_a_status_witness :
  exists sel,
    selectedLogins Sample.loadedPage = Return sel /\
    Forall (fun login => status login = JUndefined) sel.
Proof.
  apply (selectedLogins_never_returns_a_status Sample.loadedPage). reflexivity.
Defined.

(** X26: the list of logins for migration is assigned whenever the body of
    [_filterTableList] returns, and, as long as the source query does not
    take it away, every handler of the page keeps it assigned, whether it
    returns or throws. *)
Theorem logins_for_migration_stay_assigned `{host : Host} :
  (forall m, loginsForMigration (_loginMigrationModel m) <> None ->
             loginsForMigration (_loginMigrationModel (snd (getSourceLogins m)))
               <> None) ->
  (forall value selectedList p p',
     _filterTableList value selectedList p = (Return tt, p') ->
     loginsForMigration (model p') <> None) /\
  (forall evs p,
     loginsForMigration (model p) <> None ->
     loginsForMigration (model (run evs p)) <> None).
Proof.
  intros Hhost. split.
  - intros value selectedList p p'. rewrite filterTableList_run. cbv zeta.
    destruct (match selectedList with Some l => Return l | None => selectedLogins p end)
      as [selection|e]; [|discriminate].
    destruct (match _loginTableValues p with Some _ => _ | None => _ end)
      as [tableRows|e]; [|discriminate].
    destruct (selectRows selection tableRows 0) as [chosen|e]; [|discriminate].
    rewrite updateValuesOnSelection_run.
    destruct (selectedLogins _) as [sel'|e]; [|discriminate].
    intros [= <-]. unfold afterSelection. cbv zeta.
    destruct (_isCurrentPage _); discriminate.
  - induction evs as [|ev evs IH]; intros p Hp; [exact Hp|].
    cbn [run fold_left]. apply IH.
    change (assigned (snd (handle ev p))). revert p Hp.
    change (stable assigned (handle ev)).
    destruct ev; stable_tac.
Qed.

Lemma logins_for_migration_stay_assigned_witness :
  loginsForMigration
    (model (@run Sample.working [PageEnter; RefreshClicked; ValidateClicked]
              (@step Sample.working DebounceTimer Sample.initialPage))) <> None.
Proof.
  apply (proj2 (@logins_for_migration_stay_assigned Sample.working
                  (fun m H => H))).
  vm_compute. discriminate.
Defined.
